(** * pyais: decoding AIS messages carried in NMEA AIVDM sentences

    A shallow embedding of [pyais.py] and the properties of its decode
    pipeline.

    Conventions of the embedding.
    - A Python [str] is a [string]; the lines handled here hold code points
      0..255 (the wire format is ASCII).  A bit vector is, as in the source,
      a [str] of the characters '0' and '1'.
    - A Python [int] is a [Z]; a Python [float] is a primitive binary64
      [float].
    - A call either returns a value or raises: [result].  The exceptions are
      told apart by their class and message, as Python reports them.
    - [decode] prints; its model returns the printed lines next to the
      outcome.
    - A [dict] literal is an association list in the order of the source. *)

From Stdlib Require Import ZArith String Ascii List Bool Lia.
From Stdlib Require Import Floats.PrimFloat Numbers.Cyclic.Int63.Uint63.
Import ListNotations.

Open Scope string_scope.
Open Scope Z_scope.

(** ** Exceptions and the error monad *)

Inductive exn : Type :=
| ValueError_unpack (expected got : nat)
    (* not enough / too many values to unpack (expected 7) *)
| ValueError_int (base : Z) (literal : string)
    (* invalid literal for int() with base b: 'literal' *)
| KeyError (key : Z)
| IndexError_string
    (* string index out of range *)
| IndexError_list
    (* list index out of range *)
| TypeError_not_callable
    (* 'NoneType' object is not callable *)
| InterpretError
    (* bitstring: cannot interpret a zero length bitstring as an integer *)
| CreationError (initialiser : string).
    (* bitstring: invalid character in bin initialiser *)

Inductive result (A : Type) : Type :=
| Return (a : A)
| Raise (e : exn).

Arguments Return {A} a.
Arguments Raise {A} e.

Definition bind {A B : Type} (m : result A) (k : A -> result B) : result B :=
  match m with
  | Return a => k a
  | Raise e => Raise e
  end.

Notation "x <- m ;; k" := (bind m (fun x => k))
  (at level 61, m at next level, right associativity).

(** ** Python values *)

#[warnings="-register-all"]
Inductive pyval : Type :=
| PNone
| PInt (z : Z)
| PBool (b : bool)
| PFloat (f : float)
| PStr (s : string)
| PTuple (items : list pyval)
| PDict (entries : list (string * pyval)).

Fixpoint assoc {V : Type} (k : string) (l : list (string * V)) : option V :=
  match l with
  | [] => None
  | (k', v) :: l' => if (k' =? k)%string then Some v else assoc k l'
  end.

(** [d[key]] read back from a decoded message. *)
Definition field (key : string) (d : pyval) : option pyval :=
  match d with
  | PDict entries => assoc key entries
  | _ => None
  end.

(** ** Strings: [ord], [chr], slicing, indexing, [split] *)

Definition ord (c : ascii) : Z := Z.of_N (N_of_ascii c).

Definition chr (n : Z) : ascii := ascii_of_N (Z.to_N n).

Fixpoint str_drop (n : nat) (s : string) : string :=
  match n, s with
  | O, _ => s
  | S n', String _ s' => str_drop n' s'
  | S _, EmptyString => EmptyString
  end.

Fixpoint str_take (n : nat) (s : string) : string :=
  match n, s with
  | O, _ => EmptyString
  | S n', String c s' => String c (str_take n' s')
  | S _, EmptyString => EmptyString
  end.

(** [s[a:b]] for non-negative literals [a], [b]: clipped, never raising. *)
Definition slice (a b : nat) (s : string) : string :=
  str_take (b - a) (str_drop a s).

(** [s[a::]] *)
Definition slice_from (a : nat) (s : string) : string := str_drop a s.

(** [s[i]]: a one-character string, or [IndexError]. *)
Definition index (i : nat) (s : string) : result string :=
  match String.get i s with
  | Some c => Return (String c EmptyString)
  | None => Raise IndexError_string
  end.

(** [s.split(sep)] for a one-character separator. *)
Fixpoint split_loop (sep : ascii) (s : string) (cur : string) : list string :=
  match s with
  | EmptyString => [cur]
  | String c s' =>
      if (c =? sep)%char then cur :: split_loop sep s' EmptyString
      else split_loop sep s' (cur ++ String c EmptyString)
  end.

Definition split (sep : ascii) (s : string) : list string :=
  split_loop sep s EmptyString.

(** ** The builtin [int(s, base)] on strings

    Leading and trailing white space is dropped, then an optional sign, then
    for base 2, 8 or 16 an optional prefix [0b], [0o], [0x] (either case)
    with at most one underscore after it, then digits with single
    underscores between them.  Anything else is a [ValueError]. *)

Definition is_space (c : ascii) : bool :=
  let n := ord c in
  ((9 <=? n) && (n <=? 13)) || (n =? 32) || (n =? 133) || (n =? 160).

Fixpoint lstrip (s : string) : string :=
  match s with
  | String c s' => if is_space c then lstrip s' else s
  | EmptyString => s
  end.

Fixpoint all_space (s : string) : bool :=
  match s with
  | String c s' => is_space c && all_space s'
  | EmptyString => true
  end.

Definition digit_value (c : ascii) : Z :=
  let n := ord c in
  if (48 <=? n) && (n <=? 57) then n - 48
  else if (97 <=? n) && (n <=? 122) then n - 87
  else if (65 <=? n) && (n <=? 90) then n - 55
  else 37.

Definition is_prefix_letter (base : Z) (p : ascii) : bool :=
  ((base =? 16) && ((p =? "x") || (p =? "X"))%char)
  || ((base =? 8) && ((p =? "o") || (p =? "O"))%char)
  || ((base =? 2) && ((p =? "b") || (p =? "B"))%char).

Definition skip_prefix (base : Z) (s : string) : string :=
  match s with
  | String "0"%char (String p r) =>
      if is_prefix_letter base p then
        match r with
        | String "_"%char r' => r'
        | _ => r
        end
      else s
  | _ => s
  end.

(** The digit scan: the value read, the number of digits, and what is left;
    [None] on a doubled or trailing underscore. *)
Fixpoint scan_digits (base : Z) (s : string) (prev_underscore : bool)
    (acc : Z) (digits : nat) : option (Z * nat * string) :=
  match s with
  | String c s' =>
      if (c =? "_")%char then
        if prev_underscore then None
        else scan_digits base s' true acc digits
      else if digit_value c <? base then
        scan_digits base s' false (acc * base + digit_value c) (S digits)
      else if prev_underscore then None
      else Some (acc, digits, s)
  | EmptyString =>
      if prev_underscore then None else Some (acc, digits, s)
  end.

Definition py_int (s : string) (base : Z) : result Z :=
  let err := Raise (ValueError_int base s) in
  let s1 := lstrip s in
  let '(sign, s2) :=
    match s1 with
    | String "+"%char r => (1, r)
    | String "-"%char r => (-1, r)
    | _ => (1, s1)
    end in
  let s3 := skip_prefix base s2 in
  match s3 with
  | String "_"%char _ => err
  | _ =>
      match scan_digits base s3 false 0 O with
      | Some (v, O, _) => err
      | Some (v, S _, rest) => if all_space rest then Return (sign * v) else err
      | None => err
      end
  end.

(** Python converts an [int] operand to [float] before a float division or
    product; exact for the magnitudes below 2^53 that bit fields produce. *)
Definition float_of_int (z : Z) : float :=
  match z with
  | Zneg p => PrimFloat.opp (PrimFloat.of_uint63 (Uint63.of_Z (Zpos p)))
  | _ => PrimFloat.of_uint63 (Uint63.of_Z z)
  end.

(** [bool(n)] *)
Definition py_bool (n : Z) : bool := negb (n =? 0).

(** ** Constants *)

Definition UNDEFINED : string := "Undefined".
Definition RESERVED : string := "Reserved".

Definition NAVIGATION_STATUS : list (Z * string) :=
  [ (0, "Under way using engine");
    (1, "At anchor");
    (2, "Not under command");
    (3, "Restricted manoeuverability");
    (4, "Constrained by her draught");
    (5, "Moored");
    (6, "Aground");
    (7, "Engaged in Fishing");
    (8, "Under way sailing");
    (9, "Reserved");
    (10, "Reserved");
    (11, "Reserved");
    (12, "Reserved");
    (13, "Reserved");
    (14, "AIS-SART is active");
    (15, "Undefined") ].

Definition MANEUVER_INDICATOR : list (Z * string) :=
  [ (0, "Not available");
    (1, "No special maneuver");
    (2, "Special maneuver") ].

Definition EPFD_TYPE : list (Z * string) :=
  [ (0, "Undefined");
    (1, "GPS");
    (2, "GLONASS");
    (3, "GPS/GLONASS");
    (4, "Loran-C");
    (5, "Chayka");
    (6, "Integrated navigation system");
    (7, "Surveyed");
    (8, "Galileo") ].

Definition SHIP_TYPE : list (Z * string) :=
  [ (0, "Not available");
    (20, "Wing in ground (WIG)");
    (21, "Wing in ground (WIG), Hazardous category A");
    (22, "Wing in ground (WIG), Hazardous category B");
    (23, "Wing in ground (WIG), Hazardous category C");
    (24, "Wing in ground (WIG), Hazardous category D");
    (25, "WIG Reserved");
    (26, "WIG Reserved");
    (27, "WIG Reserved");
    (28, "WIG Reserved");
    (29, "WIG Reserved");
    (30, "Fishing");
    (31, "Towing");
    (32, "Towing,length exceeds 200m or breadth exceeds 25m");
    (33, "Dredging or underwater ops");
    (34, "Diving ops");
    (35, "Military ops");
    (36, "Sailing");
    (37, "Pleasure Craft");
    (38, "Reserved");
    (39, "Reserved");
    (40, "High speed craft (HSC)");
    (41, "High speed craft (HSC), Hazardous category A");
    (42, "High speed craft (HSC), Hazardous category B");
    (43, "High speed craft (HSC), Hazardous category C");
    (44, "High speed craft (HSC), Hazardous category D");
    (45, "High speed craft (HSC), Reserved");
    (46, "High speed craft (HSC), Reserved");
    (47, "High speed craft (HSC), Reserved");
    (48, "High speed craft (HSC), Reserved");
    (49, "High speed craft (HSC), No additional information");
    (50, "Pilot Vessel");
    (51, "Search and Rescue vessel");
    (52, "Tug");
    (53, "Port Tender");
    (54, "Anti-pollution equipment");
    (55, "Law Enforcement");
    (56, "Spare - Local Vessel");
    (57, "Spare - Local Vessel");
    (58, "Medical Transport");
    (59, "Noncombatant ship according to RR Resolution No. 18");
    (60, "Passenger");
    (61, "Passenger, Hazardous category A");
    (62, "Passenger, Hazardous category B");
    (63, "Passenger, Hazardous category C");
    (64, "Passenger, Hazardous category D");
    (65, "Passenger, Reserved");
    (66, "Passenger, Reserved");
    (67, "Passenger, Reserved");
    (68, "Passenger, Reserved");
    (69, "Passenger, No additional information");
    (70, "Cargo");
    (71, "Cargo, Hazardous category A");
    (72, "Cargo, Hazardous category B");
    (73, "Cargo, Hazardous category C");
    (74, "Cargo, Hazardous category D");
    (75, "Cargo, Reserved");
    (76, "Cargo, Reserved");
    (77, "Cargo, Reserved");
    (78, "Cargo, Reserved");
    (79, "Cargo, No additional information");
    (80, "Tanker");
    (81, "Tanker, Hazardous category A");
    (82, "Tanker, Hazardous category B");
    (83, "Tanker, Hazardous category C");
    (84, "Tanker, Hazardous category D");
    (85, "Tanker, Reserved ");
    (86, "Tanker, Reserved ");
    (87, "Tanker, Reserved ");
    (88, "Tanker, Reserved ");
    (89, "Tanker, No additional information");
    (90, "Other Type");
    (91, "Other Type, Hazardous category A");
    (92, "Other Type, Hazardous category B");
    (93, "Other Type, Hazardous category C");
    (94, "Other Type, Hazardous category D");
    (95, "Other Type, Reserved");
    (96, "Other Type, Reserved");
    (97, "Other Type, Reserved");
    (98, "Other Type, Reserved");
    (99, "Other Type, No additional information") ].

(** [table[key]] and [key in table.keys()] *)
Fixpoint lookup (key : Z) (table : list (Z * string)) : option string :=
  match table with
  | [] => None
  | (k, v) :: table' => if k =? key then Some v else lookup key table'
  end.

Definition getitem (table : list (Z * string)) (key : Z) : result string :=
  match lookup key table with
  | Some v => Return v
  | None => Raise (KeyError key)
  end.

Definition contains (table : list (Z * string)) (key : Z) : bool :=
  match lookup key table with
  | Some _ => true
  | None => false
  end.

(** ** The format [f'{c:06b}']

    Binary digits of the magnitude, padded with zeros to a width of at least
    six characters, the sign (if any) counted in the width and written
    first. *)

Fixpoint bin_pos (p : positive) (acc : string) : string :=
  match p with
  | xH => String "1" acc
  | xO p' => bin_pos p' (String "0" acc)
  | xI p' => bin_pos p' (String "1" acc)
  end.

Definition bin_digits (n : Z) : string :=
  match n with
  | Z0 => "0"
  | Zpos p => bin_pos p ""
  | Zneg p => bin_pos p ""
  end.

Fixpoint zeros (n : nat) : string :=
  match n with
  | O => ""
  | S n' => String "0" (zeros n')
  end.

Definition zfill (width : nat) (s : string) : string :=
  zeros (width - String.length s) ++ s.

Definition format_06b (c : Z) : string :=
  if c <? 0 then String "-" (zfill 5 (bin_digits c))
  else zfill 6 (bin_digits c).

(** ** decode_ascii6 *)

Fixpoint decode_ascii6_loop (data : string) (binary_string : string) : string :=
  match data with
  | EmptyString => binary_string
  | String ch data' =>
      let c := ord ch - 48 in
      let c := if c >? 40 then c - 8 else c in
      decode_ascii6_loop data' (binary_string ++ format_06b c)
  end.

Definition decode_ascii6 (data : string) : string :=
  decode_ascii6_loop data "".

(** ** split_str *)

Definition split_str (s : string) (chunk_size : nat) : list string :=
  let chunks := ((String.length s + chunk_size - 1) / chunk_size)%nat in
  map (fun i => slice (i * chunk_size) ((i + 1) * chunk_size) s) (seq 0 chunks).

(** ** ascii6 *)

Fixpoint ascii6_loop (chunks : list string) (ignore_tailing_fillers : bool)
    (acc : string) : result string :=
  match chunks with
  | [] => Return acc
  | chunk :: chunks' =>
      c <- py_int chunk 2 ;;
      let c := if c <? 32 then c + 64 else c in
      let c := chr c in
      if ignore_tailing_fillers && (c =? "@")%char then Return acc
      else ascii6_loop chunks' ignore_tailing_fillers (acc ++ String c "")
  end.

Definition ascii6 (data : string) (ignore_tailing_fillers : bool) : result string :=
  ascii6_loop (split_str data 6) ignore_tailing_fillers "".

(** ** signed *)

Definition is_bit (c : ascii) : bool := ((c =? "0") || (c =? "1"))%char.

Fixpoint all_bits (s : string) : bool :=
  match s with
  | EmptyString => true
  | String c s' => is_bit c && all_bits s'
  end.

(** The unsigned value of a string of bits, most significant bit first. *)
Fixpoint bits_value (s : string) (acc : Z) : Z :=
  match s with
  | EmptyString => acc
  | String c s' => bits_value s' (2 * acc + (if (c =? "1")%char then 1 else 0))
  end.

(** Modelled from the spec: [BitArray(bin=...).int] of the [bitstring]
    package, which is imported by the source and not part of it.  The bit
    range is read as two's complement, the first bit being the sign; an empty
    range cannot be read, and a character other than a bit is refused when
    the array is built.  (The model covers the characters that
    [decode_ascii6] writes: '0', '1' and '-'.) *)
Definition signed (bit_vector : string) : result Z :=
  if all_bits bit_vector then
    match bit_vector with
    | EmptyString => Raise InterpretError
    | String b _ =>
        let u := bits_value bit_vector 0 in
        Return (if (b =? "1")%char
                then u - 2 ^ Z.of_nat (String.length bit_vector)
                else u)
    end
  else Raise (CreationError bit_vector).

(** ** to_int *)

Definition to_int (bit_string : string) (base : Z) : result Z :=
  match bit_string with
  | EmptyString => Return 0
  | _ => py_int bit_string base
  end.

(** ** checksum *)

Fixpoint checksum_loop (s : string) (c_sum : Z) : Z :=
  match s with
  | EmptyString => c_sum
  | String c s' =>
      if (c =? "*")%char then c_sum
      else checksum_loop s' (Z.lxor c_sum (ord c))
  end.

Definition checksum (msg : string) : Z :=
  checksum_loop (slice_from 1 msg) 0.

(** ** The message decoders

    Each dict literal is evaluated field by field in the order of the source,
    so that the first failing field decides the exception. *)

Definition scale_600000 (n : Z) : float :=
  PrimFloat.div (float_of_int n) 600000%float.

(** The binary64 value of the literal [0.1]. *)
Definition tenth : float := 0x1.999999999999ap-4%float.

Definition decode_msg_1 (bit_vector : string) : result pyval :=
  status <- to_int (slice 38 42 bit_vector) 2 ;;
  maneuver <- to_int (slice 143 145 bit_vector) 2 ;;
  type_ <- to_int (slice 0 6 bit_vector) 2 ;;
  repeat_ <- to_int (slice 6 8 bit_vector) 2 ;;
  mmsi <- to_int (slice 8 38 bit_vector) 2 ;;
  status_label <- getitem NAVIGATION_STATUS status ;;
  turn <- signed (slice 42 50 bit_vector) ;;
  speed <- to_int (slice 50 60 bit_vector) 2 ;;
  bit60 <- index 60 bit_vector ;;
  accuracy <- to_int bit60 2 ;;
  lon <- signed (slice 61 89 bit_vector) ;;
  lat <- signed (slice 89 116 bit_vector) ;;
  course <- to_int (slice 116 128 bit_vector) 2 ;;
  heading <- to_int (slice 128 137 bit_vector) 2 ;;
  second <- to_int (slice 137 143 bit_vector) 2 ;;
  maneuver_label <- getitem MANEUVER_INDICATOR maneuver ;;
  bit148 <- index 148 bit_vector ;;
  raim <- to_int bit148 2 ;;
  radio <- to_int (slice_from 149 bit_vector) 2 ;;
  Return (PDict
    [ ("type", PInt type_);
      ("repeat", PInt repeat_);
      ("mmsi", PInt mmsi);
      ("status", PTuple [PInt status; PStr status_label]);
      ("turn", PInt turn);
      ("speed", PInt speed);
      ("accuracy", PInt accuracy);
      ("lon", PFloat (scale_600000 lon));
      ("lat", PFloat (scale_600000 lat));
      ("course", PFloat (PrimFloat.mul (float_of_int course) tenth));
      ("heading", PInt heading);
      ("second", PInt second);
      ("maneuver", PTuple [PInt maneuver; PStr maneuver_label]);
      ("raim", PBool (py_bool raim));
      ("radio", PInt radio) ]%list).

Definition decode_msg_2 (bit_vector : string) : result pyval :=
  decode_msg_1 bit_vector.

Definition decode_msg_3 (bit_vector : string) : result pyval :=
  decode_msg_1 bit_vector.

Definition decode_msg_4 (bit_vector : string) : result pyval :=
  epfd <- to_int (slice 134 138 bit_vector) 2 ;;
  type_ <- to_int (slice 0 6 bit_vector) 2 ;;
  repeat_ <- to_int (slice 6 8 bit_vector) 2 ;;
  mmsi <- to_int (slice 8 38 bit_vector) 2 ;;
  year <- to_int (slice 38 52 bit_vector) 2 ;;
  month <- to_int (slice 52 56 bit_vector) 2 ;;
  day <- to_int (slice 56 61 bit_vector) 2 ;;
  hour <- to_int (slice 61 66 bit_vector) 2 ;;
  minute <- to_int (slice 66 72 bit_vector) 2 ;;
  second <- to_int (slice 72 78 bit_vector) 2 ;;
  bit78 <- index 78 bit_vector ;;
  accuracy <- to_int bit78 2 ;;
  lon <- signed (slice 66 72 bit_vector) ;;
  lat <- signed (slice 66 72 bit_vector) ;;
  epfd_label <- (if contains EPFD_TYPE epfd then getitem EPFD_TYPE epfd
                 else Return UNDEFINED) ;;
  bit148 <- index 148 bit_vector ;;
  raim <- to_int bit148 2 ;;
  radio <- to_int (slice_from 148 bit_vector) 2 ;;
  Return (PDict
    [ ("type", PInt type_);
      ("repeat", PInt repeat_);
      ("mmsi", PInt mmsi);
      ("year", PInt year);
      ("month", PInt month);
      ("day", PInt day);
      ("hour", PInt hour);
      ("minute", PInt minute);
      ("second", PInt second);
      ("accuracy", PBool (py_bool accuracy));
      ("lon", PFloat (scale_600000 lon));
      ("lat", PFloat (scale_600000 lat));
      ("epfd", PTuple [PInt epfd; PStr epfd_label]);
      ("raim", PBool (py_bool raim));
      ("radio", PInt radio) ]%list).

Definition decode_msg_5 (bit_vector : string) : result pyval :=
  epfd <- to_int (slice 270 274 bit_vector) 2 ;;
  ship_type <- to_int (slice 66 72 bit_vector) 2 ;;
  type_ <- to_int (slice 0 6 bit_vector) 2 ;;
  repeat_ <- to_int (slice 6 8 bit_vector) 2 ;;
  mmsi <- to_int (slice 8 38 bit_vector) 2 ;;
  ais_version <- to_int (slice 38 40 bit_vector) 2 ;;
  imo <- to_int (slice 40 70 bit_vector) 2 ;;
  callsign <- ascii6 (slice 70 112 bit_vector) true ;;
  shipname <- ascii6 (slice 112 232 bit_vector) true ;;
  ship_type_label <- (if contains SHIP_TYPE ship_type
                      then getitem SHIP_TYPE ship_type
                      else Return UNDEFINED) ;;
  to_bow <- to_int (slice 240 249 bit_vector) 2 ;;
  to_stern <- to_int (slice 249 258 bit_vector) 2 ;;
  to_port <- to_int (slice 258 264 bit_vector) 2 ;;
  to_starboard <- to_int (slice 264 270 bit_vector) 2 ;;
  epfd_label <- getitem EPFD_TYPE epfd ;;
  month <- to_int (slice 274 278 bit_vector) 2 ;;
  day <- to_int (slice 278 283 bit_vector) 2 ;;
  hour <- to_int (slice 283 288 bit_vector) 2 ;;
  minute <- to_int (slice 288 294 bit_vector) 2 ;;
  draught <- to_int (slice 294 302 bit_vector) 2 ;;
  destination <- ascii6 (slice_from 302 bit_vector) true ;;
  Return (PDict
    [ ("type", PInt type_);
      ("repeat", PInt repeat_);
      ("mmsi", PInt mmsi);
      ("ais_version", PInt ais_version);
      ("imo", PInt imo);
      ("callsign", PStr callsign);
      ("shipname", PStr shipname);
      ("shiptype", PTuple [PInt ship_type; PStr ship_type_label]);
      ("to_bow", PInt to_bow);
      ("to_stern", PInt to_stern);
      ("to_port", PInt to_port);
      ("to_starboard", PInt to_starboard);
      ("epfd", PTuple [PInt epfd; PStr epfd_label]);
      ("month", PInt month);
      ("day", PInt day);
      ("hour", PInt hour);
      ("minute", PInt minute);
      ("draught", PFloat (PrimFloat.div (float_of_int draught) 10%float));
      ("destination", PStr destination) ]%list).

(** [decode_msg_6] to [decode_msg_17] and [decode_msg_19] to
    [decode_msg_24] have the body [pass]: they return [None]. *)
Definition decode_msg_pass (bit_vector : string) : result pyval :=
  Return PNone.

Definition decode_msg_6 := decode_msg_pass.
Definition decode_msg_7 := decode_msg_pass.
Definition decode_msg_8 := decode_msg_pass.
Definition decode_msg_9 := decode_msg_pass.
Definition decode_msg_10 := decode_msg_pass.
Definition decode_msg_11 := decode_msg_pass.
Definition decode_msg_12 := decode_msg_pass.
Definition decode_msg_13 := decode_msg_pass.
Definition decode_msg_14 := decode_msg_pass.
Definition decode_msg_15 := decode_msg_pass.
Definition decode_msg_16 := decode_msg_pass.
Definition decode_msg_17 := decode_msg_pass.

(** A one-bit flag [bool(to_int(bit_vector[i]))]. *)
Definition flag (i : nat) (bit_vector : string) : result bool :=
  b <- index i bit_vector ;;
  n <- to_int b 2 ;;
  Return (py_bool n).

Definition decode_msg_18 (bit_vector : string) : result pyval :=
  type_ <- to_int (slice 0 6 bit_vector) 2 ;;
  repeat_ <- to_int (slice 6 8 bit_vector) 2 ;;
  mmsi <- to_int (slice 8 38 bit_vector) 2 ;;
  speed <- to_int (slice 46 55 bit_vector) 2 ;;
  accuracy <- flag 55 bit_vector ;;
  lon <- signed (slice 56 85 bit_vector) ;;
  lat <- signed (slice 85 112 bit_vector) ;;
  course <- to_int (slice 112 124 bit_vector) 2 ;;
  heading <- to_int (slice 124 133 bit_vector) 2 ;;
  second <- to_int (slice 133 139 bit_vector) 2 ;;
  regional <- to_int (slice 139 141 bit_vector) 2 ;;
  cs <- flag 141 bit_vector ;;
  display <- flag 142 bit_vector ;;
  dsc <- flag 143 bit_vector ;;
  band <- flag 144 bit_vector ;;
  msg22 <- flag 145 bit_vector ;;
  assigned <- flag 146 bit_vector ;;
  raim <- flag 147 bit_vector ;;
  radio <- to_int (slice_from 148 bit_vector) 2 ;;
  Return (PDict
    [ ("type", PInt type_);
      ("repeat", PInt repeat_);
      ("mmsi", PInt mmsi);
      ("speed", PInt speed);
      ("accuracy", PBool accuracy);
      ("lon", PFloat (scale_600000 lon));
      ("lat", PFloat (scale_600000 lat));
      ("course", PFloat (PrimFloat.mul (float_of_int course) tenth));
      ("heading", PInt heading);
      ("second", PInt second);
      ("regional", PInt regional);
      ("cs", PBool cs);
      ("display", PBool display);
      ("dsc", PBool dsc);
      ("band", PBool band);
      ("msg22", PBool msg22);
      ("assigned", PBool assigned);
      ("raim", PBool raim);
      ("radio", PInt radio) ]%list).

Definition decode_msg_19 := decode_msg_pass.
Definition decode_msg_20 := decode_msg_pass.
Definition decode_msg_21 := decode_msg_pass.
Definition decode_msg_22 := decode_msg_pass.
Definition decode_msg_23 := decode_msg_pass.
Definition decode_msg_24 := decode_msg_pass.

Definition DECODE_MSG : list (option (string -> result pyval)) :=
  [ None;
    Some decode_msg_1;
    Some decode_msg_2;
    Some decode_msg_3;
    Some decode_msg_4;
    Some decode_msg_5;
    Some decode_msg_6;
    Some decode_msg_7;
    Some decode_msg_8;
    Some decode_msg_9;
    Some decode_msg_10;
    Some decode_msg_11;
    Some decode_msg_12;
    Some decode_msg_13;
    Some decode_msg_14;
    Some decode_msg_15;
    Some decode_msg_16;
    Some decode_msg_17;
    Some decode_msg_18;
    Some decode_msg_19;
    Some decode_msg_20;
    Some decode_msg_21;
    Some decode_msg_22;
    Some decode_msg_23;
    Some decode_msg_24 ]%list.

(** ** decode *)

Definition ESC : ascii := ascii_of_nat 27.

Definition INVALID_CHECKSUM : string :=
  String ESC "[31mInvalid Checksum dropping packet!" ++ String ESC "[0m".

Definition NO_SENTENCING : string :=
  String ESC "[31mSentencing is not supported yet!" ++ String ESC "[0m".

(** [DECODE_MSG[msg_type](decoded_data)] *)
Definition dispatch (msg_type : Z) (decoded_data : string) : result pyval :=
  match nth_error DECODE_MSG (Z.to_nat msg_type) with
  | Some (Some decoder) => decoder decoded_data
  | Some None => Raise TypeError_not_callable
  | None => Raise IndexError_list
  end.

(** The outcome of [decode]: the lines printed, then the value returned or
    the exception raised. *)
Definition outcome : Type := (list string * result pyval)%type.

Definition decode (msg : string) : outcome :=
  match split "," msg with
  | [m_typ; n_sentences; sentence_num; seq_id; channel; data; chcksum]%list =>
      let decoded_data := decode_ascii6 data in
      match py_int (slice 0 6 decoded_data) 2 with
      | Raise e => ([], Raise e)
      | Return msg_type =>
          match py_int ("0x" ++ slice_from 2 chcksum) 16 with
          | Raise e => ([], Raise e)
          | Return declared =>
              if negb (checksum msg =? declared) then
                ([INVALID_CHECKSUM], Return PNone)
              else if negb (n_sentences =? "1")%string
                      || negb (sentence_num =? "1")%string then
                ([NO_SENTENCING], Return PNone)
              else if (0 <? msg_type) && (msg_type <? 25) then
                ([], dispatch msg_type decoded_data)
              else
                ([], Return PNone)
          end
      end
  | fields => ([], Raise (ValueError_unpack 7 (List.length fields)))
  end.

(** ** The specification's wording

    Definitions that follow the words of the specification, to be compared
    with the functions above. *)

(** The value a payload character stands for, in the words of the
    specification: [ord(c) - 48], less 8 when that exceeds 40. *)
Definition armor_value (ch : ascii) : Z :=
  let v := ord ch - 48 in
  if v >? 40 then v - 8 else v.

(** A value written as six bits, most significant first. *)
Definition bit_char (b : bool) : ascii := if b then "1"%char else "0"%char.

Definition six_bits (v : Z) : string :=
  String (bit_char (Z.testbit v 5))
    (String (bit_char (Z.testbit v 4))
      (String (bit_char (Z.testbit v 3))
        (String (bit_char (Z.testbit v 2))
          (String (bit_char (Z.testbit v 1))
            (String (bit_char (Z.testbit v 0)) ""))))).

(** The bit vector as the specification words it: the six-bit groups of the
    characters, concatenated in input order. *)
Fixpoint armor_groups (data : string) : string :=
  match data with
  | EmptyString => ""
  | String ch data' => six_bits (armor_value ch) ++ armor_groups data'
  end.

(** The characters whose value fits six bits: code points 48 to 119, which
    include the armor alphabet (48-87 and 96-119). *)
Definition armor_char (ch : ascii) : bool :=
  (48 <=? ord ch) && (ord ch <=? 119).

Fixpoint armored (data : string) : bool :=
  match data with
  | EmptyString => true
  | String ch data' => armor_char ch && armored data'
  end.

(** The character a chunk stands for, in the words of the specification: the
    unsigned value of the chunk, plus 64 when below 32, as a code point. *)
Definition text_code (chunk : string) : ascii :=
  let c := bits_value chunk 0 in
  chr (if c <? 32 then c + 64 else c).

(** The characters before the first '@'. *)
Fixpoint until_filler (chars : list ascii) : list ascii :=
  match chars with
  | [] => []
  | c :: chars' => if (c =? "@")%char then [] else c :: until_filler chars'
  end%list.

Definition ascii6_text (data : string) (strip_fillers : bool) : string :=
  let chars := map text_code (split_str data 6) in
  string_of_list_ascii (if strip_fillers then until_filler chars else chars).

(** The outcomes other than the unpacking error. *)
Definition not_unpack {A : Type} (r : result A) : Prop :=
  forall expected got : nat, r <> Raise (ValueError_unpack expected got).

(** A string without the checksum delimiter. *)
Fixpoint no_star (s : string) : bool :=
  match s with
  | EmptyString => true
  | String c s' => negb (c =? "*")%char && no_star s'
  end.

(** The armor alphabet proper: code points 48 to 87 and 96 to 119. *)
Definition alphabet_char (ch : ascii) : bool :=
  ((48 <=? ord ch) && (ord ch <=? 87)) || ((96 <=? ord ch) && (ord ch <=? 119)).

Fixpoint alphabet (data : string) : bool :=
  match data with
  | EmptyString => true
  | String ch data' => alphabet_char ch && alphabet data'
  end.

(** The strings whose characters are at or above '0'. *)
Fixpoint from_zero_up (data : string) : bool :=
  match data with
  | EmptyString => true
  | String ch data' => (48 <=? ord ch) && from_zero_up data'
  end.

(** The strings of the characters '0', '1' and '-'. *)
Fixpoint bits_or_signs (s : string) : bool :=
  match s with
  | EmptyString => true
  | String c s' => (is_bit c || (c =? "-")%char) && bits_or_signs s'
  end.

(** The exceptions that reading fields can raise: an invalid literal for
    [int], a missing key, a string index out of range, and the two errors of
    [bitstring]. *)
Definition decoder_error (e : exn) : Prop :=
  match e with
  | ValueError_int _ _ => True
  | KeyError _ => True
  | IndexError_string => True
  | InterpretError => True
  | CreationError _ => True
  | ValueError_unpack _ _ => False
  | IndexError_list => False
  | TypeError_not_callable => False
  end.

(** [r] raises, if at all, an exception among [P]. *)
Definition raises_only {A : Type} (P : exn -> Prop) (r : result A) : Prop :=
  forall e : exn, r = Raise e -> P e.

(** * Properties *)

(** ** The error monad *)

Lemma bind_Return_inv {A B : Type} (m : result A) (k : A -> result B) (b : B) :
  bind m k = Return b -> exists a, m = Return a /\ k a = Return b.
Proof.
  destruct m as [a | e]; simpl; intros H.
  - exists a. split; [reflexivity | exact H].
  - discriminate H.
Qed.

(** Peel the binds of a decoder that returned. *)
Ltac peel H :=
  repeat (let a := fresh "v" in
          let E := fresh "E" in
          apply bind_Return_inv in H; destruct H as (a & E & H)).

(** ** Type 4: longitude and latitude *)

(** C9: in every type-4 message that [decode_msg_4] returns, the longitude
    field equals the latitude field: both are the signed value of the bit
    range [66:72) divided by 600000.0. *)
Theorem decode_msg_4_lon_eq_lat (bit_vector : string) (d : pyval) :
  decode_msg_4 bit_vector = Return d ->
  exists raw : Z,
    signed (slice 66 72 bit_vector) = Return raw /\
    field "lon" d = Some (PFloat (scale_600000 raw)) /\
    field "lat" d = Some (PFloat (scale_600000 raw)) /\
    field "lon" d = field "lat" d.
Proof.
  intros H. unfold decode_msg_4 in H. peel H.
  injection H as <-.
  match goal with
  | E1 : signed _ = Return ?x, E2 : signed _ = Return ?y |- _ =>
      assert (x = y) by congruence; subst y; exists x
  end.
  repeat split; try assumption; reflexivity.
Qed.

Lemma decode_msg_4_lon_eq_lat_witness :
  exists (d : pyval) (raw : Z),
    decode_msg_4 (decode_ascii6 "403OviQuMGCqWrRO9>E6fE700@GO") = Return d /\
    signed (slice 66 72 (decode_ascii6 "403OviQuMGCqWrRO9>E6fE700@GO"))
    = Return raw /\
    field "lon" d = field "lat" d.
Proof.
  assert (Hd : exists d,
             decode_msg_4 (decode_ascii6 "403OviQuMGCqWrRO9>E6fE700@GO")
             = Return d)
    by (vm_compute; eexists; reflexivity).
  destruct Hd as (d & Hd).
  destruct (decode_msg_4_lon_eq_lat _ d Hd) as (raw & Hraw & _ & _ & Heq).
  exists d, raw. repeat split; assumption.
Defined.

(** ** Strings *)

Lemma length_app (a b : string) :
  String.length (a ++ b) = (String.length a + String.length b)%nat.
Proof.
  induction a as [| c a IH]; simpl; [reflexivity | now rewrite IH].
Qed.

Lemma app_empty_r (a : string) : a ++ "" = a.
Proof.
  induction a as [| c a IH]; simpl; [reflexivity | now rewrite IH].
Qed.

Lemma app_assoc (a b c : string) : (a ++ b) ++ c = a ++ (b ++ c).
Proof.
  induction a as [| x a IH]; simpl; [reflexivity | now rewrite IH].
Qed.

Lemma str_take_app (n : nat) (a b : string) :
  (n <= String.length a)%nat -> str_take n (a ++ b) = str_take n a.
Proof.
  revert a. induction n as [| n IH]; intros a Hn; [reflexivity |].
  destruct a as [| c a]; simpl in *; [lia |].
  rewrite IH by lia. reflexivity.
Qed.

Lemma length_str_take (n : nat) (s : string) :
  String.length (str_take n s) = Nat.min n (String.length s).
Proof.
  revert s. induction n as [| n IH]; intros [| c s]; simpl; auto.
Qed.

Lemma length_str_drop (n : nat) (s : string) :
  String.length (str_drop n s) = (String.length s - n)%nat.
Proof.
  revert s. induction n as [| n IH]; intros [| c s]; simpl; auto.
Qed.

Lemma length_slice (a b : nat) (s : string) :
  (String.length (slice a b s) <= b - a)%nat.
Proof.
  unfold slice. rewrite length_str_take. lia.
Qed.

Lemma all_bits_app (a b : string) :
  all_bits (a ++ b) = all_bits a && all_bits b.
Proof.
  induction a as [| c a IH]; simpl; [reflexivity |].
  rewrite IH. now rewrite andb_assoc.
Qed.

Lemma all_bits_str_take (n : nat) (s : string) :
  all_bits s = true -> all_bits (str_take n s) = true.
Proof.
  revert s. induction n as [| n IH]; intros [| c s]; simpl; auto.
  intros H. apply andb_true_iff in H as [Hc Hs].
  rewrite Hc. simpl. auto.
Qed.

Lemma all_bits_str_drop (n : nat) (s : string) :
  all_bits s = true -> all_bits (str_drop n s) = true.
Proof.
  revert s. induction n as [| n IH]; intros [| c s]; simpl; auto.
  intros H. apply andb_true_iff in H as [_ Hs]. auto.
Qed.

Lemma all_bits_slice (a b : nat) (s : string) :
  all_bits s = true -> all_bits (slice a b s) = true.
Proof.
  intros H. unfold slice. now apply all_bits_str_take, all_bits_str_drop.
Qed.

(** ** The armor decoder *)

Lemma decode_ascii6_loop_app (data acc : string) :
  decode_ascii6_loop data acc = acc ++ decode_ascii6_loop data "".
Proof.
  revert acc. induction data as [| ch data IH]; intros acc; simpl.
  - now rewrite app_empty_r.
  - rewrite IH. rewrite (IH (format_06b _)). now rewrite app_assoc.
Qed.

Lemma decode_ascii6_cons (ch : ascii) (data : string) :
  decode_ascii6 (String ch data)
  = format_06b (armor_value ch) ++ decode_ascii6 data.
Proof.
  unfold decode_ascii6. simpl. now rewrite decode_ascii6_loop_app.
Qed.

Ltac each_ascii ch :=
  destruct ch as [[] [] [] [] [] [] [] []].

Lemma format_06b_armor_char (ch : ascii) :
  armor_char ch = true ->
  format_06b (armor_value ch) = six_bits (armor_value ch).
Proof.
  each_ascii ch; vm_compute; intros H; try discriminate H; reflexivity.
Qed.

Lemma armor_value_range (ch : ascii) :
  armor_char ch = true -> 0 <= armor_value ch < 64.
Proof.
  unfold armor_char, armor_value. intros H.
  apply andb_true_iff in H as [H1 H2].
  apply Z.leb_le in H1, H2.
  destruct (ord ch - 48 >? 40) eqn:E.
  - apply Z.gtb_lt in E. lia.
  - lia.
Qed.

Lemma all_bits_six_bits (v : Z) : all_bits (six_bits v) = true.
Proof.
  assert (Hbit : forall b, is_bit (bit_char b) = true) by (intros []; reflexivity).
  unfold six_bits. cbn [all_bits]. rewrite !Hbit. reflexivity.
Qed.

(** A six-bit group is the big-endian writing of its value. *)
Lemma six_bits_value (v : Z) :
  0 <= v < 64 -> bits_value (six_bits v) 0 = v.
Proof.
  intros H. rewrite <- (Z2Nat.id v) by lia.
  assert (Hn : (Z.to_nat v < 64)%nat) by lia.
  generalize dependent (Z.to_nat v). clear v H. intros n Hn.
  do 64 (destruct n as [| n]; [reflexivity |]). lia.
Qed.

(** C7: over a payload written in the armor characters, [decode_ascii6]
    maps each character to [ord(c) - 48], less 8 when above 40, writes that
    value as a six-bit group, most significant bit first, and concatenates
    the groups in input order; the result is a string of bits of length
    exactly six times the number of payload characters. *)
Theorem decode_ascii6_armor_groups (data : string) :
  armored data = true ->
  decode_ascii6 data = armor_groups data /\
  String.length (decode_ascii6 data) = (6 * String.length data)%nat /\
  all_bits (decode_ascii6 data) = true.
Proof.
  induction data as [| ch data IH]; intros H.
  - repeat split; reflexivity.
  - simpl in H. apply andb_true_iff in H as [Hch Hdata].
    destruct (IH Hdata) as (IH1 & IH2 & IH3).
    rewrite decode_ascii6_cons, (format_06b_armor_char ch Hch).
    repeat split.
    + simpl armor_groups. now rewrite IH1.
    + rewrite length_app, IH2. simpl String.length. lia.
    + rewrite all_bits_app, IH3, all_bits_six_bits. reflexivity.
Qed.

Lemma decode_ascii6_armor_groups_witness :
  decode_ascii6 "15M67FC000G?ufbE`FepT@3n00Sa"
  = armor_groups "15M67FC000G?ufbE`FepT@3n00Sa" /\
  String.length (decode_ascii6 "15M67FC000G?ufbE`FepT@3n00Sa") = 168%nat.
Proof.
  destruct (decode_ascii6_armor_groups "15M67FC000G?ufbE`FepT@3n00Sa")
    as (H1 & H2 & _).
  - vm_compute. reflexivity.
  - split; [exact H1 | exact H2].
Defined.

(** Outside those characters the group is not six bits wide: the format
    only pads, and a negative value carries its sign. *)
Example decode_ascii6_wide_group :
  decode_ascii6 "x" = "1000000" /\ decode_ascii6 "/" = "-00001".
Proof. split; reflexivity. Qed.

(** ** The type code *)

Lemma format_06b_width (ch : ascii) :
  (6 <= String.length (format_06b (armor_value ch)))%nat.
Proof.
  each_ascii ch; vm_compute; lia.
Qed.

Lemma type_bits_first_char (ch : ascii) (data : string) :
  slice 0 6 (decode_ascii6 (String ch data))
  = str_take 6 (format_06b (armor_value ch)).
Proof.
  rewrite decode_ascii6_cons. unfold slice. simpl str_drop.
  apply str_take_app, format_06b_width.
Qed.

(** With a payload that is not empty the type code is always read: the first
    six characters of the bit vector come from the first payload character
    alone and form a binary literal (signed, below code point 48). *)
Lemma msg_type_defined (ch : ascii) (data : string) :
  exists msg_type : Z,
    py_int (slice 0 6 (decode_ascii6 (String ch data))) 2 = Return msg_type.
Proof.
  rewrite type_bits_first_char.
  each_ascii ch; vm_compute; eexists; reflexivity.
Qed.

Lemma msg_type_nonempty (data : string) :
  data <> "" ->
  exists msg_type : Z,
    py_int (slice 0 6 (decode_ascii6 data)) 2 = Return msg_type.
Proof.
  destruct data as [| ch rest]; [congruence |].
  intros _. apply msg_type_defined.
Qed.

Lemma msg_type_armor_char (ch : ascii) (data : string) :
  armor_char ch = true ->
  py_int (slice 0 6 (decode_ascii6 (String ch data))) 2
  = Return (armor_value ch).
Proof.
  rewrite type_bits_first_char.
  each_ascii ch; vm_compute; intros H; try discriminate H; reflexivity.
Qed.

Lemma msg_type_empty_payload :
  py_int (slice 0 6 (decode_ascii6 "")) 2 = Raise (ValueError_int 2 "").
Proof. reflexivity. Qed.

(** ** decode: the order of the checks *)

Section Sentence.

Variables (msg m_typ n_sentences sentence_num seq_id channel data chcksum
           : string).

Hypothesis seven_fields :
  split "," msg
  = [m_typ; n_sentences; sentence_num; seq_id; channel; data; chcksum]%list.

(** What [decode] does with a line of seven fields. *)
Lemma decode_seven_fields :
  decode msg =
  match py_int (slice 0 6 (decode_ascii6 data)) 2 with
  | Raise e => ([], Raise e)
  | Return msg_type =>
      match py_int ("0x" ++ slice_from 2 chcksum) 16 with
      | Raise e => ([], Raise e)
      | Return declared =>
          if negb (checksum msg =? declared) then
            ([INVALID_CHECKSUM], Return PNone)
          else if negb (n_sentences =? "1")%string
                  || negb (sentence_num =? "1")%string then
            ([NO_SENTENCING], Return PNone)
          else if (0 <? msg_type) && (msg_type <? 25) then
            ([], dispatch msg_type (decode_ascii6 data))
          else
            ([], Return PNone)
      end
  end.
Proof.
  unfold decode. rewrite seven_fields. reflexivity.
Qed.

Lemma decode_dispatch (msg_type : Z) :
  py_int (slice 0 6 (decode_ascii6 data)) 2 = Return msg_type ->
  py_int ("0x" ++ slice_from 2 chcksum) 16 = Return (checksum msg) ->
  n_sentences = "1" ->
  sentence_num = "1" ->
  decode msg =
  if (0 <? msg_type) && (msg_type <? 25)
  then ([], dispatch msg_type (decode_ascii6 data))
  else ([], Return PNone).
Proof.
  intros Htype Hdecl Hn Hs.
  rewrite decode_seven_fields, Htype, Hdecl, Z.eqb_refl, Hn, Hs.
  reflexivity.
Qed.

End Sentence.

(** ** The unpacking error comes from the field count alone *)

Create HintDb unpack.

Lemma not_unpack_Return {A : Type} (a : A) : not_unpack (Return a).
Proof. intros expected got H. discriminate H. Qed.

Lemma not_unpack_Raise {A B : Type} (m : result A) (e : exn) :
  m = Raise e -> not_unpack m -> not_unpack (@Raise B e).
Proof.
  intros -> Hm expected got H. apply (Hm expected got). congruence.
Qed.

Lemma not_unpack_bind {A B : Type} (m : result A) (k : A -> result B) :
  not_unpack m -> (forall a, not_unpack (k a)) -> not_unpack (bind m k).
Proof.
  intros Hm Hk. destruct m as [a | e]; simpl.
  - apply Hk.
  - intros expected got H. apply (Hm expected got). congruence.
Qed.

Lemma not_unpack_py_int (s : string) (base : Z) : not_unpack (py_int s base).
Proof.
  intros expected got. unfold py_int.
  destruct (lstrip s) as [| c r]; cbv zeta.
  - simpl. discriminate.
  - destruct (match String c r with
              | String "+"%char r0 => (1, r0)
              | String "-"%char r0 => (-1, r0)
              | _ => (1, String c r)
              end) as [sign s2].
    destruct (skip_prefix base s2) as [| c3 r3].
    + destruct (scan_digits base "" false 0 0) as [[[v [| n]] rest] |];
        try discriminate.
      destruct (all_space rest); discriminate.
    + destruct (scan_digits base (String c3 r3) false 0 0)
        as [[[v [| n]] rest] |];
        destruct c3 as [[] [] [] [] [] [] [] []]; try discriminate;
        destruct (all_space rest); discriminate.
Qed.

Lemma not_unpack_to_int (s : string) (base : Z) : not_unpack (to_int s base).
Proof.
  destruct s; simpl; [apply not_unpack_Return | apply not_unpack_py_int].
Qed.

Lemma not_unpack_signed (s : string) : not_unpack (signed s).
Proof.
  intros expected got. unfold signed.
  destruct (all_bits s); [destruct s |]; discriminate.
Qed.

Lemma not_unpack_index (i : nat) (s : string) : not_unpack (index i s).
Proof.
  intros expected got. unfold index. destruct (String.get i s); discriminate.
Qed.

Lemma not_unpack_getitem (table : list (Z * string)) (key : Z) :
  not_unpack (getitem table key).
Proof.
  intros expected got. unfold getitem. destruct (lookup key table); discriminate.
Qed.

Lemma not_unpack_ascii6_loop (chunks : list string) (ignore : bool) (acc : string) :
  not_unpack (ascii6_loop chunks ignore acc).
Proof.
  revert acc. induction chunks as [| chunk chunks IH]; intros acc; simpl.
  - apply not_unpack_Return.
  - apply not_unpack_bind; [apply not_unpack_py_int |].
    intros c. destruct (_ && _); [apply not_unpack_Return | apply IH].
Qed.

Lemma not_unpack_ascii6 (data : string) (ignore : bool) :
  not_unpack (ascii6 data ignore).
Proof. apply not_unpack_ascii6_loop. Qed.

#[local] Hint Resolve not_unpack_Return not_unpack_py_int not_unpack_to_int
  not_unpack_signed not_unpack_index not_unpack_getitem not_unpack_ascii6
  : unpack.

Ltac no_unpack_step :=
  first [ solve [auto with unpack]
        | destruct (contains _ _); solve [auto with unpack] ].

Ltac no_unpack :=
  repeat (apply not_unpack_bind; [no_unpack_step | intros ?]);
  no_unpack_step.

Lemma not_unpack_flag (i : nat) (s : string) : not_unpack (flag i s).
Proof. unfold flag. no_unpack. Qed.

#[local] Hint Resolve not_unpack_flag : unpack.

Lemma not_unpack_decode_msg_1 (bv : string) : not_unpack (decode_msg_1 bv).
Proof. unfold decode_msg_1. no_unpack. Qed.

Lemma not_unpack_decode_msg_4 (bv : string) : not_unpack (decode_msg_4 bv).
Proof.
  unfold decode_msg_4. no_unpack.
Qed.

Lemma not_unpack_decode_msg_5 (bv : string) : not_unpack (decode_msg_5 bv).
Proof.
  unfold decode_msg_5. no_unpack.
Qed.

Lemma not_unpack_decode_msg_18 (bv : string) : not_unpack (decode_msg_18 bv).
Proof. unfold decode_msg_18. no_unpack. Qed.

Lemma not_unpack_decode_msg_pass (bv : string) :
  not_unpack (decode_msg_pass bv).
Proof. apply not_unpack_Return. Qed.

Lemma not_unpack_dispatch (msg_type : Z) (bv : string) :
  not_unpack (dispatch msg_type bv).
Proof.
  unfold dispatch.
  destruct (nth_error DECODE_MSG (Z.to_nat msg_type)) as [[decoder |] |] eqn:E;
    try (intros expected got H; discriminate H).
  apply nth_error_In in E. simpl in E.
  repeat (destruct E as [E | E];
          [ first [ discriminate E
                  | injection E as <-;
                    first [ apply not_unpack_decode_msg_1
                          | apply not_unpack_decode_msg_4
                          | apply not_unpack_decode_msg_5
                          | apply not_unpack_decode_msg_18
                          | apply not_unpack_decode_msg_pass ] ]
          | ]).
  contradiction.
Qed.

(** ** decode: the claims on sentences *)

(** C6: [decode] splits the line on ',' and raises the unpacking
    [ValueError] (the malformed-sentence failure) if and only if the number
    of fields is not 7.  With 7 fields it goes on to the later steps, in
    this order: the type code is read from the armor-decoded sixth field,
    the text after the first two characters of the seventh field is parsed
    as the declared checksum and compared with the computed one, the second
    and third fields are compared with "1", and the message is dispatched
    on its type code; the outcome is that of the first step that fails, or
    of the dispatch, and never the unpacking failure. *)
Theorem decode_malformed_iff (msg : string) :
  ((exists out expected got,
      decode msg = (out, Raise (ValueError_unpack expected got)))
   <-> List.length (split "," msg) <> 7%nat) /\
  (List.length (split "," msg) <> 7%nat ->
   decode msg
   = ([], Raise (ValueError_unpack 7 (List.length (split "," msg))))) /\
  (List.length (split "," msg) = 7%nat ->
   exists m_typ n_sentences sentence_num seq_id channel data chcksum : string,
     split "," msg
     = [m_typ; n_sentences; sentence_num; seq_id; channel; data; chcksum]%list
     /\
     decode msg =
     match py_int (slice 0 6 (decode_ascii6 data)) 2 with
     | Raise e => ([], Raise e)
     | Return msg_type =>
         match py_int ("0x" ++ slice_from 2 chcksum) 16 with
         | Raise e => ([], Raise e)
         | Return declared =>
             if negb (checksum msg =? declared) then
               ([INVALID_CHECKSUM], Return PNone)
             else if negb (n_sentences =? "1")%string
                     || negb (sentence_num =? "1")%string then
               ([NO_SENTENCING], Return PNone)
             else if (0 <? msg_type) && (msg_type <? 25) then
               ([], dispatch msg_type (decode_ascii6 data))
             else
               ([], Return PNone)
         end
     end) /\
  (List.length (split "," msg) = 7%nat ->
   decode msg = ([INVALID_CHECKSUM], Return PNone) \/
   decode msg = ([NO_SENTENCING], Return PNone) \/
   exists r : result pyval, decode msg = ([], r) /\ not_unpack r).
Proof.
  assert (Hnext :
    List.length (split "," msg) = 7%nat ->
    exists m_typ n_sentences sentence_num seq_id channel data chcksum : string,
      split "," msg
      = [m_typ; n_sentences; sentence_num; seq_id; channel; data; chcksum]%list
      /\
      decode msg =
      match py_int (slice 0 6 (decode_ascii6 data)) 2 with
      | Raise e => ([], Raise e)
      | Return msg_type =>
          match py_int ("0x" ++ slice_from 2 chcksum) 16 with
          | Raise e => ([], Raise e)
          | Return declared =>
              if negb (checksum msg =? declared) then
                ([INVALID_CHECKSUM], Return PNone)
              else if negb (n_sentences =? "1")%string
                      || negb (sentence_num =? "1")%string then
                ([NO_SENTENCING], Return PNone)
              else if (0 <? msg_type) && (msg_type <? 25) then
                ([], dispatch msg_type (decode_ascii6 data))
              else
                ([], Return PNone)
          end
      end).
  { intros Hlen.
    destruct (split "," msg)
      as [| f1 [| f2 [| f3 [| f4 [| f5 [| f6 [| f7 [| f8 l]]]]]]]] eqn:E;
      try discriminate Hlen.
    exists f1, f2, f3, f4, f5, f6, f7. split; [reflexivity |].
    apply (decode_seven_fields _ _ _ _ _ _ _ _ E). }
  assert (Hbad : List.length (split "," msg) <> 7%nat ->
                 decode msg
                 = ([], Raise (ValueError_unpack 7
                                 (List.length (split "," msg))))).
  { unfold decode.
    destruct (split "," msg)
      as [| f1 [| f2 [| f3 [| f4 [| f5 [| f6 [| f7 [| f8 l]]]]]]]];
      simpl; intros H; try reflexivity.
    exfalso. apply H. reflexivity. }
  assert (Hgood : List.length (split "," msg) = 7%nat ->
                  decode msg = ([INVALID_CHECKSUM], Return PNone) \/
                  decode msg = ([NO_SENTENCING], Return PNone) \/
                  exists r : result pyval,
                    decode msg = ([], r) /\ not_unpack r).
  { intros Hlen.
    destruct (split "," msg)
      as [| f1 [| f2 [| f3 [| f4 [| f5 [| f6 [| f7 [| f8 l]]]]]]]] eqn:E;
      try discriminate Hlen.
    rewrite (decode_seven_fields _ _ _ _ _ _ _ _ E).
    destruct (py_int (slice 0 6 (decode_ascii6 f6)) 2) as [t | e] eqn:Et.
    - destruct (py_int ("0x" ++ slice_from 2 f7) 16) as [k | e] eqn:Ek.
      + destruct (negb (checksum msg =? k)); [now left |].
        destruct (negb (f2 =? "1")%string || negb (f3 =? "1")%string);
          [now right; left |].
        right. right.
        destruct ((0 <? t) && (t <? 25)); eexists; (split; [reflexivity |]).
        * apply not_unpack_dispatch.
        * apply not_unpack_Return.
      + right. right. eexists. split; [reflexivity |].
        exact (not_unpack_Raise _ e Ek (not_unpack_py_int _ _)).
    - right. right. eexists. split; [reflexivity |].
      exact (not_unpack_Raise _ e Et (not_unpack_py_int _ _)). }
  split; [split |];
    [| intros H; rewrite (Hbad H); eauto
     | split; [assumption | split; assumption]].
  intros (out & expected & got & H) Hlen.
  destruct (Hgood Hlen) as [H' | [H' | (r & H' & Hr)]];
    rewrite H' in H; try discriminate H.
  injection H as _ H. exact (Hr expected got H).
Qed.

(** C2 (as the code has it): for every line of seven fields with a payload
    that is not empty, whose checksum field holds, after its first two
    characters, a hexadecimal literal different from the XOR of the
    characters between the first one and '*', [decode] prints the
    invalid-checksum notice and returns [None], never a message, whatever
    the fragment fields and the type code are: the check precedes the
    fragment check and the dispatch. *)
Theorem decode_checksum_mismatch
    (msg m_typ n_sentences sentence_num seq_id channel data chcksum : string)
    (declared : Z) :
  split "," msg
  = [m_typ; n_sentences; sentence_num; seq_id; channel; data; chcksum]%list ->
  data <> "" ->
  py_int ("0x" ++ slice_from 2 chcksum) 16 = Return declared ->
  checksum msg <> declared ->
  decode msg = ([INVALID_CHECKSUM], Return PNone).
Proof.
  intros Hsplit Hdata Hdecl Hsum.
  rewrite (decode_seven_fields _ _ _ _ _ _ _ _ Hsplit).
  destruct (msg_type_nonempty data Hdata) as (msg_type & ->).
  rewrite Hdecl.
  apply Z.eqb_neq in Hsum. rewrite Hsum. reflexivity.
Qed.

Lemma decode_checksum_mismatch_witness :
  decode "!AIVDM,1,1,,B,15M67FC000G?ufbE`FepT@3n00Sa,0*5D"
  = ([INVALID_CHECKSUM], Return PNone).
Proof.
  apply (decode_checksum_mismatch
           "!AIVDM,1,1,,B,15M67FC000G?ufbE`FepT@3n00Sa,0*5D"
           "!AIVDM" "1" "1" "" "B" "15M67FC000G?ufbE`FepT@3n00Sa" "0*5D" 93).
  - reflexivity.
  - discriminate.
  - reflexivity.
  - vm_compute. discriminate.
Defined.

(** C2 as stated fails: on a line of seven fields with an empty payload and
    a wrong checksum, the type extraction raises before the checksum is
    looked at. *)
Lemma decode_checksum_not_first :
  List.length (split "," "!AIVDM,1,1,,B,,0*00") = 7%nat /\
  py_int ("0x" ++ slice_from 2 "0*00") 16 = Return 0 /\
  checksum "!AIVDM,1,1,,B,,0*00" = 37 /\
  decode "!AIVDM,1,1,,B,,0*00" = ([], Raise (ValueError_int 2 "")) /\
  decode "!AIVDM,1,1,,B,,0*00" <> ([INVALID_CHECKSUM], Return PNone).
Proof.
  repeat split; try reflexivity. vm_compute. discriminate.
Qed.

(** C5 (as the code has it): for every line of seven fields with a payload
    that is not empty and a checksum field that matches the computed
    checksum, if the fragment count or the fragment index differs from "1"
    then [decode] prints the no-sentencing notice and returns [None]: the
    sentence is dropped and no message is produced. *)
Theorem decode_unsupported_fragmentation
    (msg m_typ n_sentences sentence_num seq_id channel data chcksum : string) :
  split "," msg
  = [m_typ; n_sentences; sentence_num; seq_id; channel; data; chcksum]%list ->
  data <> "" ->
  py_int ("0x" ++ slice_from 2 chcksum) 16 = Return (checksum msg) ->
  n_sentences <> "1" \/ sentence_num <> "1" ->
  decode msg = ([NO_SENTENCING], Return PNone).
Proof.
  intros Hsplit Hdata Hdecl Hfrag.
  rewrite (decode_seven_fields _ _ _ _ _ _ _ _ Hsplit).
  destruct (msg_type_nonempty data Hdata) as (msg_type & ->).
  rewrite Hdecl, Z.eqb_refl. cbn [negb].
  replace (negb (n_sentences =? "1")%string
           || negb (sentence_num =? "1")%string) with true; [reflexivity |].
  symmetry. apply orb_true_iff.
  destruct Hfrag as [H | H]; [left | right];
    apply negb_true_iff, String.eqb_neq; exact H.
Qed.

Lemma decode_unsupported_fragmentation_witness :
  decode "!AIVDM,2,1,,B,15M67FC000G?ufbE`FepT@3n00Sa,0*5F"
  = ([NO_SENTENCING], Return PNone).
Proof.
  apply (decode_unsupported_fragmentation
           "!AIVDM,2,1,,B,15M67FC000G?ufbE`FepT@3n00Sa,0*5F"
           "!AIVDM" "2" "1" "" "B" "15M67FC000G?ufbE`FepT@3n00Sa" "0*5F").
  - reflexivity.
  - discriminate.
  - reflexivity.
  - left. discriminate.
Defined.

(** C5 as stated fails: a line of seven fields with a matching checksum,
    fragment count "2" and an empty payload passes the field count and the
    checksum, yet the type extraction raises before the fragment fields are
    looked at. *)
Lemma decode_fragmentation_not_reached :
  split "," "!AIVDM,2,1,,B,,0*26"
  = ["!AIVDM"; "2"; "1"; ""; "B"; ""; "0*26"]%list /\
  py_int ("0x" ++ slice_from 2 "0*26") 16
  = Return (checksum "!AIVDM,2,1,,B,,0*26") /\
  checksum "!AIVDM,2,1,,B,,0*26" = 38 /\
  decode "!AIVDM,2,1,,B,,0*26" = ([], Raise (ValueError_int 2 "")) /\
  decode "!AIVDM,2,1,,B,,0*26" <> ([NO_SENTENCING], Return PNone).
Proof.
  repeat split; try reflexivity. vm_compute. discriminate.
Qed.

(** C10: for every line whose sixth field is empty, [decode] raises: with
    seven fields the type code is read from the empty bit vector, which is an
    invalid literal for [int], whatever the checksum and the fragment fields
    hold; with another number of fields the unpacking fails. *)
Theorem decode_empty_payload_raises (msg : string) :
  nth_error (split "," msg) 5 = Some "" ->
  exists e : exn,
    decode msg = ([], Raise e) /\
    (List.length (split "," msg) = 7%nat -> e = ValueError_int 2 "") /\
    (List.length (split "," msg) <> 7%nat ->
     e = ValueError_unpack 7 (List.length (split "," msg))).
Proof.
  intros H. unfold decode.
  destruct (split "," msg) as [| f1 [| f2 [| f3 [| f4 [| f5 [| f6 [| f7 [| f8 l]]]]]]]];
    try discriminate H;
    simpl in H; injection H as ->;
    eexists; (split; [reflexivity | split; intros Hlen; simpl in Hlen]);
    try reflexivity; try discriminate Hlen; try (exfalso; apply Hlen; reflexivity).
Qed.

Lemma decode_empty_payload_raises_witness :
  exists e : exn,
    decode "!AIVDM,2,1,,B,,0*00" = ([], Raise e) /\ e = ValueError_int 2 "".
Proof.
  destruct (decode_empty_payload_raises "!AIVDM,2,1,,B,,0*00")
    as (e & He & H7 & _).
  - reflexivity.
  - exists e. split; [exact He | apply H7; reflexivity].
Defined.

(** ** The types without a decoder *)

Lemma dispatch_pass (msg_type : Z) (bit_vector : string) :
  6 <= msg_type <= 17 \/ 19 <= msg_type <= 24 ->
  dispatch msg_type bit_vector = Return PNone.
Proof.
  intros H.
  assert (Hcases :
    msg_type = 6 \/ msg_type = 7 \/ msg_type = 8 \/ msg_type = 9 \/
    msg_type = 10 \/ msg_type = 11 \/ msg_type = 12 \/ msg_type = 13 \/
    msg_type = 14 \/ msg_type = 15 \/ msg_type = 16 \/ msg_type = 17 \/
    msg_type = 19 \/ msg_type = 20 \/ msg_type = 21 \/ msg_type = 22 \/
    msg_type = 23 \/ msg_type = 24) by lia.
  repeat (destruct Hcases as [-> | Hcases]; [reflexivity |]).
  subst msg_type. reflexivity.
Qed.

(** C3 (as the code has it): for every line that gets through the field
    count, the checksum and the fragment checks and whose type code is in
    6..17 or 19..24, [decode] returns [None], without raising and without
    printing, and never a record.  A type code outside 1..24 gives the very
    same outcome: [None] does not carry the type code and does not tell the
    two cases apart. *)
Theorem decode_type_without_decoder
    (msg m_typ n_sentences sentence_num seq_id channel data chcksum : string)
    (msg_type : Z) :
  split "," msg
  = [m_typ; n_sentences; sentence_num; seq_id; channel; data; chcksum]%list ->
  py_int (slice 0 6 (decode_ascii6 data)) 2 = Return msg_type ->
  py_int ("0x" ++ slice_from 2 chcksum) 16 = Return (checksum msg) ->
  n_sentences = "1" ->
  sentence_num = "1" ->
  (6 <= msg_type <= 17 \/ 19 <= msg_type <= 24)
  \/ (msg_type <= 0 \/ 25 <= msg_type) ->
  decode msg = ([], Return PNone).
Proof.
  intros Hsplit Htype Hsum Hn Hs Hrange.
  rewrite (decode_dispatch _ _ _ _ _ _ _ _ Hsplit msg_type Htype Hsum Hn Hs).
  destruct Hrange as [Hpass | Hout].
  - rewrite (dispatch_pass msg_type (decode_ascii6 data) Hpass).
    destruct ((0 <? msg_type) && (msg_type <? 25)); reflexivity.
  - replace ((0 <? msg_type) && (msg_type <? 25)) with false; [reflexivity |].
    symmetry. apply andb_false_iff.
    destruct Hout as [H | H]; [left | right]; apply Z.ltb_ge; lia.
Qed.

Lemma decode_type_without_decoder_witness :
  decode "!AIVDM,1,1,,B,6,0*13" = ([], Return PNone).
Proof.
  apply (decode_type_without_decoder
           "!AIVDM,1,1,,B,6,0*13" "!AIVDM" "1" "1" "" "B" "6" "0*13" 6).
  - reflexivity.
  - reflexivity.
  - reflexivity.
  - reflexivity.
  - reflexivity.
  - left. left. lia.
Defined.

(** C3 as stated fails: the outcome for type code 6, for type code 7 and for
    the invalid type code 0 is one and the same [None]; and a line of type 6
    whose checksum field is not hexadecimal raises. *)
Lemma decode_not_implemented_not_distinct :
  py_int (slice 0 6 (decode_ascii6 "6")) 2 = Return 6 /\
  py_int (slice 0 6 (decode_ascii6 "7")) 2 = Return 7 /\
  py_int (slice 0 6 (decode_ascii6 "0")) 2 = Return 0 /\
  decode "!AIVDM,1,1,,B,6,0*13" = ([], Return PNone) /\
  decode "!AIVDM,1,1,,B,7,0*12" = decode "!AIVDM,1,1,,B,6,0*13" /\
  decode "!AIVDM,1,1,,B,0,0*15" = decode "!AIVDM,1,1,,B,6,0*13" /\
  decode "!AIVDM,1,1,,B,6,0*ZZ" = ([], Raise (ValueError_int 16 "0xZZ")).
Proof.
  repeat split; reflexivity.
Qed.

(** ** Signed fields *)

Lemma bits_value_acc (s : string) (acc : Z) :
  bits_value s acc = acc * 2 ^ Z.of_nat (String.length s) + bits_value s 0.
Proof.
  revert acc. induction s as [| c s IH]; intros acc.
  - simpl. lia.
  - cbn [bits_value String.length].
    rewrite IH, (IH (2 * 0 + _)), Nat2Z.inj_succ, Z.pow_succ_r by lia.
    ring.
Qed.

Lemma bits_value_range (s : string) :
  0 <= bits_value s 0 < 2 ^ Z.of_nat (String.length s).
Proof.
  induction s as [| c s IH].
  - simpl. lia.
  - cbn [bits_value String.length].
    rewrite bits_value_acc, Nat2Z.inj_succ, Z.pow_succ_r by lia.
    destruct (c =? "1")%char; lia.
Qed.

Lemma signed_range (s : string) (x : Z) :
  signed s = Return x ->
  (1 <= String.length s)%nat /\
  - 2 ^ (Z.of_nat (String.length s) - 1) <= x
    < 2 ^ (Z.of_nat (String.length s) - 1).
Proof.
  unfold signed. destruct (all_bits s); [| discriminate].
  destruct s as [| b r]; [discriminate |].
  assert (Hlen : Z.of_nat (String.length (String b r))
                 = Z.of_nat (String.length r) + 1)
    by (cbn [String.length]; lia).
  assert (Hval : bits_value (String b r) 0
                 = (if (b =? "1")%char then 1 else 0)
                   * 2 ^ Z.of_nat (String.length r) + bits_value r 0)
    by (cbn [bits_value]; rewrite bits_value_acc; f_equal).
  pose proof (bits_value_range r) as Hr.
  remember (bits_value (String b r) 0) as u eqn:Eu.
  remember (String.length (String b r)) as n eqn:En.
  intros H. injection H as <-.
  rewrite Hlen, Hval, Z.pow_add_r by lia.
  replace (Z.of_nat (String.length r) + 1 - 1)
    with (Z.of_nat (String.length r)) by lia.
  split; [lia |].
  destruct (b =? "1")%char; lia.
Qed.

Lemma signed_slice_range (a b : nat) (s : string) (x : Z) :
  signed (slice a b s) = Return x ->
  - 2 ^ (Z.of_nat (b - a) - 1) <= x < 2 ^ (Z.of_nat (b - a) - 1).
Proof.
  intros H. apply signed_range in H as [Hlen Hx].
  pose proof (length_slice a b s) as Hle.
  assert (Hpow : 2 ^ (Z.of_nat (String.length (slice a b s)) - 1)
                 <= 2 ^ (Z.of_nat (b - a) - 1))
    by (apply Z.pow_le_mono_r; lia).
  lia.
Qed.

(** C4 (as the code has it): in every type-1, type-2 or type-3 message
    returned, the longitude is the signed value of bits [61:89) divided by
    600000.0 and the latitude the signed value of bits [89:116) divided by
    600000.0; the raw values range over all of 28 and 27 bits, from -2^27 to
    2^27 - 1 and from -2^26 to 2^26 - 1 (about 223.7 and 111.8 degrees in
    magnitude), and nothing confines them to 180 and 90 degrees. *)
Theorem decode_msg_1_position_range
    (decoder : string -> result pyval) (bit_vector : string) (d : pyval) :
  In decoder [decode_msg_1; decode_msg_2; decode_msg_3] ->
  decoder bit_vector = Return d ->
  exists lon lat : Z,
    signed (slice 61 89 bit_vector) = Return lon /\
    signed (slice 89 116 bit_vector) = Return lat /\
    field "lon" d = Some (PFloat (scale_600000 lon)) /\
    field "lat" d = Some (PFloat (scale_600000 lat)) /\
    - 2 ^ 27 <= lon < 2 ^ 27 /\
    - 2 ^ 26 <= lat < 2 ^ 26.
Proof.
  intros Hdec H.
  assert (H1 : decode_msg_1 bit_vector = Return d).
  { simpl in Hdec. destruct Hdec as [<- | [<- | [<- | []]]]; exact H. }
  clear H Hdec. unfold decode_msg_1 in H1. peel H1.
  injection H1 as <-.
  match goal with
  | Elon : signed (slice 61 89 _) = Return ?x,
    Elat : signed (slice 89 116 _) = Return ?y |- _ =>
      exists x, y;
      pose proof (signed_slice_range _ _ _ _ Elon) as Hlon;
      pose proof (signed_slice_range _ _ _ _ Elat) as Hlat
  end.
  repeat split; try assumption; try reflexivity;
    simpl in Hlon, Hlat; lia.
Qed.

Lemma decode_msg_1_position_range_witness :
  exists (d : pyval) (lon lat : Z),
    decode_msg_3 (decode_ascii6 "35NVm2gP00o@5k:EbbPJnwwN25e3") = Return d /\
    field "lon" d = Some (PFloat (scale_600000 lon)) /\
    field "lat" d = Some (PFloat (scale_600000 lat)) /\
    - 2 ^ 27 <= lon < 2 ^ 27 /\
    - 2 ^ 26 <= lat < 2 ^ 26.
Proof.
  assert (Hd : exists d,
             decode_msg_3 (decode_ascii6 "35NVm2gP00o@5k:EbbPJnwwN25e3")
             = Return d)
    by (vm_compute; eexists; reflexivity).
  destruct Hd as (d & Hd).
  destruct (decode_msg_1_position_range decode_msg_3
              (decode_ascii6 "35NVm2gP00o@5k:EbbPJnwwN25e3") d) as
    (lon & lat & _ & _ & Flon & Flat & Rlon & Rlat).
  - simpl. right. right. left. reflexivity.
  - exact Hd.
  - exists d, lon, lat. repeat split; assumption || apply Rlon || apply Rlat.
Defined.

(** C4 as stated fails: a type-1 sentence carrying the raw values 108600000
    and 54600000 decodes to longitude 181.0 and latitude 91.0. *)
Lemma decode_msg_1_position_out_of_range :
  exists d : pyval,
    decode "!AIVDM,1,1,,B,15M67FC000<tSF0l4Q@8T@3n00Sa,0*3F" = ([], Return d) /\
    field "type" d = Some (PInt 1) /\
    field "lon" d = Some (PFloat 181%float) /\
    field "lat" d = Some (PFloat 91%float) /\
    PrimFloat.leb 181%float 180%float = false /\
    PrimFloat.leb 91%float 90%float = false.
Proof.
  eexists. split; [vm_compute; reflexivity |].
  repeat split; reflexivity.
Qed.

(** ** [int(s, 2)] on a string of bits *)

Lemma is_bit_cases (c : ascii) :
  is_bit c = true -> c = "0"%char \/ c = "1"%char.
Proof.
  unfold is_bit. intros H. apply orb_true_iff in H as [H | H];
    apply Ascii.eqb_eq in H; auto.
Qed.

Lemma scan_digits_bits (s : string) (acc : Z) (digits : nat) :
  all_bits s = true ->
  scan_digits 2 s false acc digits
  = Some (bits_value s acc, (digits + String.length s)%nat, "").
Proof.
  revert acc digits. induction s as [| c s IH]; intros acc digits H.
  - simpl. now rewrite Nat.add_0_r.
  - simpl in H. apply andb_true_iff in H as [Hc Hs].
    destruct (is_bit_cases c Hc) as [-> | ->];
      cbn [scan_digits bits_value String.length];
      change ("0" =? "_")%char with false;
      change ("1" =? "_")%char with false;
      cbv iota.
    + change (digit_value "0" <? 2) with true. cbv iota.
      rewrite (IH _ _ Hs).
      change (digit_value "0") with 0. change ("0" =? "1")%char with false.
      replace (acc * 2 + 0) with (2 * acc + 0) by lia.
      replace (S digits + String.length s)%nat
        with (digits + S (String.length s))%nat by lia.
      reflexivity.
    + change (digit_value "1" <? 2) with true. cbv iota.
      rewrite (IH _ _ Hs).
      change (digit_value "1") with 1. change ("1" =? "1")%char with true.
      replace (acc * 2 + 1) with (2 * acc + 1) by lia.
      replace (S digits + String.length s)%nat
        with (digits + S (String.length s))%nat by lia.
      reflexivity.
Qed.

Lemma py_int_bits (s : string) :
  all_bits s = true -> s <> "" -> py_int s 2 = Return (bits_value s 0).
Proof.
  intros Hbits Hne.
  destruct s as [| c r]; [congruence |].
  pose proof (scan_digits_bits (String c r) 0 0 Hbits) as Hscan.
  simpl in Hbits. apply andb_true_iff in Hbits as [Hc Hr].
  assert (Hskip : skip_prefix 2 (String c r) = String c r).
  { destruct (is_bit_cases c Hc) as [-> | ->]; [| reflexivity].
    destruct r as [| p r']; [reflexivity |].
    simpl in Hr. apply andb_true_iff in Hr as [Hp _].
    destruct (is_bit_cases p Hp) as [-> | ->]; reflexivity. }
  unfold py_int.
  destruct (is_bit_cases c Hc) as [-> | ->];
    cbn [lstrip]; cbv zeta;
    match goal with
    | |- context [is_space ?c] => change (is_space c) with false
    end; cbv iota beta;
    rewrite Hskip, Hscan; cbn [String.length Nat.add all_space];
    f_equal; lia.
Qed.

(** ** The packed-text decoder *)

Lemma string_of_list_ascii_cons_app (acc : string) (c : ascii) (l : list ascii) :
  (acc ++ String c "") ++ string_of_list_ascii l
  = acc ++ string_of_list_ascii (c :: l).
Proof.
  rewrite app_assoc. reflexivity.
Qed.

Lemma ascii6_loop_text (chunks : list string) (strip : bool) (acc : string) :
  Forall (fun chunk => all_bits chunk = true /\ chunk <> "") chunks ->
  ascii6_loop chunks strip acc
  = Return (acc ++ string_of_list_ascii
                     (if strip then until_filler (map text_code chunks)
                      else map text_code chunks)).
Proof.
  intros H. revert acc.
  induction H as [| chunk chunks [Hbits Hne] _ IH]; intros acc.
  - simpl. destruct strip; simpl; now rewrite app_empty_r.
  - cbn [ascii6_loop map until_filler].
    rewrite (py_int_bits chunk Hbits Hne). cbn [bind].
    fold (text_code chunk).
    destruct strip; cbn [andb].
    + destruct (text_code chunk =? "@")%char.
      * simpl. now rewrite app_empty_r.
      * rewrite IH. now rewrite string_of_list_ascii_cons_app.
    + rewrite IH. now rewrite string_of_list_ascii_cons_app.
Qed.

Lemma length_slice_exact (a b : nat) (s : string) :
  String.length (slice a b s) = Nat.min (b - a) (String.length s - a).
Proof.
  unfold slice. now rewrite length_str_take, length_str_drop.
Qed.

Lemma split_str_chunks (data : string) :
  all_bits data = true ->
  Forall (fun chunk => all_bits chunk = true /\ chunk <> "") (split_str data 6).
Proof.
  intros Hbits. unfold split_str. apply Forall_forall.
  intros chunk Hin. apply in_map_iff in Hin as (i & <- & Hi).
  apply in_seq in Hi. split; [now apply all_bits_slice |].
  intros Hempty.
  pose proof (length_slice_exact (i * 6) ((i + 1) * 6) data) as Hlen.
  rewrite Hempty in Hlen. simpl String.length in Hlen.
  pose proof (Nat.div_mod_eq (String.length data + 6 - 1) 6) as Hdiv.
  pose proof (Nat.mod_upper_bound (String.length data + 6 - 1) 6) as Hmod.
  lia.
Qed.

Lemma until_filler_no_filler (chars : list ascii) :
  ~ In "@"%char (until_filler chars).
Proof.
  induction chars as [| c chars IH]; simpl; [tauto |].
  destruct (c =? "@")%char eqn:E; simpl; [tauto |].
  apply Ascii.eqb_neq in E. intros [H | H]; [congruence | tauto].
Qed.

Lemma until_filler_prefix (chars : list ascii) :
  exists rest : list ascii,
    chars = (until_filler chars ++ rest)%list /\
    (rest = [] \/ exists rest', rest = "@"%char :: rest').
Proof.
  induction chars as [| c chars (rest & IH1 & IH2)]; simpl.
  - exists []. split; [reflexivity | now left].
  - destruct (c =? "@")%char eqn:E.
    + apply Ascii.eqb_eq in E as ->. exists ("@"%char :: chars).
      split; [reflexivity | right; eauto].
    + exists rest. split; [simpl; congruence | exact IH2].
Qed.

(** C8: over a range of bits cut into chunks of six, [ascii6] reads each
    chunk as an unsigned integer, adds 64 when it is below 32, and takes the
    result as a code point.  With filler stripping it returns the characters
    before the first chunk that decodes to '@' and none at or after it;
    without, it returns the characters of all the chunks. *)
Theorem ascii6_text_decoder (data : string) :
  all_bits data = true ->
  (forall strip_fillers : bool,
     ascii6 data strip_fillers = Return (ascii6_text data strip_fillers)) /\
  ~ In "@"%char (list_ascii_of_string (ascii6_text data true)) /\
  exists rest : list ascii,
    list_ascii_of_string (ascii6_text data false)
    = (list_ascii_of_string (ascii6_text data true) ++ rest)%list /\
    (rest = [] \/ exists rest', rest = "@"%char :: rest').
Proof.
  intros Hbits.
  pose proof (split_str_chunks data Hbits) as Hchunks.
  unfold ascii6_text. rewrite !list_ascii_of_string_of_list_ascii.
  repeat split.
  - intros strip. unfold ascii6.
    rewrite (ascii6_loop_text _ _ _ Hchunks). reflexivity.
  - apply until_filler_no_filler.
  - apply until_filler_prefix.
Qed.

Lemma ascii6_text_decoder_witness :
  ascii6 "001000000101001100001100001111000000010111" false
  = Return "HELLO@W" /\
  ascii6 "001000000101001100001100001111000000010111" true
  = Return "HELLO".
Proof.
  destruct (ascii6_text_decoder "001000000101001100001100001111000000010111")
    as (H & _).
  - reflexivity.
  - split; [exact (H false) | exact (H true)].
Defined.

(** ** Enumerated fields *)

(** The lookup with a fallback, as written for the EPFD type of type 4 and
    the ship type of type 5, never fails. *)
Lemma lookup_with_fallback (table : list (Z * string)) (code : Z) :
  (if contains table code then getitem table code else Return UNDEFINED)
  = Return (match lookup code table with
            | Some label => label
            | None => UNDEFINED
            end).
Proof.
  unfold contains, getitem. destruct (lookup code table); reflexivity.
Qed.

(** Every four-bit code has a navigation status. *)
Lemma navigation_status_total (status : Z) :
  0 <= status < 16 ->
  exists label : string, getitem NAVIGATION_STATUS status = Return label.
Proof.
  intros H.
  assert (Hcases :
    status = 0 \/ status = 1 \/ status = 2 \/ status = 3 \/ status = 4 \/
    status = 5 \/ status = 6 \/ status = 7 \/ status = 8 \/ status = 9 \/
    status = 10 \/ status = 11 \/ status = 12 \/ status = 13 \/
    status = 14 \/ status = 15) by lia.
  repeat (destruct Hcases as [-> | Hcases]; [eexists; reflexivity |]).
  subst status. eexists. reflexivity.
Qed.

(** C1: the maneuver indicator of types 1/2/3 and the EPFD type of type 5
    are looked up without a fallback, so a code that is absent from the table
    makes the decoder raise [KeyError] instead of giving the pair of code and
    fallback label: maneuver code 3 in a type-1 sentence, EPFD code 15 in a
    type-5 sentence. *)
Theorem enumerated_lookup_key_error :
  to_int (slice 143 145 (decode_ascii6 "15M67FC000G?ufbE`FepT@3oP0Sa")) 2
  = Return 3 /\
  lookup 3 MANEUVER_INDICATOR = None /\
  decode "!AIVDM,1,1,,B,15M67FC000G?ufbE`FepT@3oP0Sa,0*3D"
  = ([], Raise (KeyError 3)) /\
  lookup 15 EPFD_TYPE = None /\
  decode "!AIVDM,1,1,,B,500000000000000000000000000000000000000000000t0000000000000000000000000,0*54"
  = ([], Raise (KeyError 15)).
Proof.
  repeat split; vm_compute; reflexivity.
Qed.

(** * Further properties of the decoding functions *)

(** ** Slices *)

Lemma str_drop_empty (n : nat) : str_drop n "" = "".
Proof. destruct n; reflexivity. Qed.

Lemma str_take_empty (n : nat) : str_take n "" = "".
Proof. destruct n; reflexivity. Qed.

Lemma str_drop_add (a k : nat) (s : string) :
  str_drop (a + k) s = str_drop k (str_drop a s).
Proof.
  revert s. induction a as [| a IH]; intros s; [reflexivity |].
  destruct s as [| c s]; simpl; [now rewrite str_drop_empty | apply IH].
Qed.

Lemma str_take_add (m k : nat) (s : string) :
  str_take (m + k) s = str_take m s ++ str_take k (str_drop m s).
Proof.
  revert s. induction m as [| m IH]; intros s; [reflexivity |].
  destruct s as [| c s]; simpl; [now rewrite str_take_empty |].
  now rewrite IH.
Qed.

Lemma str_take_all (n : nat) (s : string) :
  (String.length s <= n)%nat -> str_take n s = s.
Proof.
  revert s. induction n as [| n IH]; intros [| c s] H; simpl in *;
    try reflexivity; [lia |].
  rewrite IH by lia. reflexivity.
Qed.

Lemma str_take_drop (n : nat) (s : string) :
  str_take n s ++ str_drop n s = s.
Proof.
  revert s. induction n as [| n IH]; intros [| c s]; simpl;
    try reflexivity. now rewrite IH.
Qed.

Lemma slice_app (a b c : nat) (s : string) :
  (a <= b)%nat -> (b <= c)%nat ->
  slice a b s ++ slice b c s = slice a c s.
Proof.
  intros Hab Hbc. unfold slice.
  replace (c - a)%nat with ((b - a) + (c - b))%nat by lia.
  rewrite str_take_add. f_equal. f_equal.
  rewrite <- str_drop_add. f_equal. lia.
Qed.

Lemma slice_whole (b : nat) (s : string) :
  (String.length s <= b)%nat -> slice 0 b s = s.
Proof.
  intros H. unfold slice. simpl str_drop. rewrite Nat.sub_0_r.
  now apply str_take_all.
Qed.

(** ** split_str *)

Lemma split_str_count (s : string) (chunk_size : nat) :
  List.length (split_str s chunk_size)
  = ((String.length s + chunk_size - 1) / chunk_size)%nat.
Proof.
  unfold split_str. now rewrite length_map, length_seq.
Qed.

Lemma concat_chunks (s : string) (n a k : nat) :
  fold_right append ""
    (map (fun i => slice (i * n) ((i + 1) * n) s) (seq a k))
  = slice (a * n) ((a + k) * n) s.
Proof.
  revert a. induction k as [| k IH]; intros a.
  - simpl. unfold slice. rewrite Nat.add_0_r, Nat.sub_diag. reflexivity.
  - cbn [seq map fold_right]. rewrite IH.
    replace ((a + 1) * n)%nat with (S a * n)%nat by lia.
    rewrite slice_app by nia. f_equal. lia.
Qed.

Lemma ceil_div_bounds (len n : nat) :
  (0 < n)%nat ->
  (len <= ((len + n - 1) / n) * n < len + n)%nat.
Proof.
  intros Hn.
  pose proof (Nat.div_mod_eq (len + n - 1) n) as Hdiv.
  pose proof (Nat.mod_upper_bound (len + n - 1) n) as Hmod.
  nia.
Qed.

(** The chunks of [split_str], put back together, are the string; every
    chunk but the last has exactly [chunk_size] characters, and the last has
    between 1 and [chunk_size]. *)
Theorem split_str_partition (s : string) (chunk_size : nat) :
  (0 < chunk_size)%nat ->
  fold_right append "" (split_str s chunk_size) = s /\
  forall (i : nat) (chunk : string),
    nth_error (split_str s chunk_size) i = Some chunk ->
    (1 <= String.length chunk <= chunk_size)%nat /\
    ((S i < List.length (split_str s chunk_size))%nat ->
     String.length chunk = chunk_size).
Proof.
  intros Hn.
  pose proof (ceil_div_bounds (String.length s) chunk_size Hn) as Hceil.
  split.
  - unfold split_str. rewrite concat_chunks. simpl Nat.mul. simpl Nat.add.
    apply slice_whole. lia.
  - intros i chunk Hnth.
    rewrite split_str_count.
    unfold split_str in Hnth.
    rewrite nth_error_map in Hnth.
    destruct (nth_error (seq 0 _) i) as [j |] eqn:Ej; [| discriminate Hnth].
    injection Hnth as <-.
    pose proof (nth_error_Some (seq 0 ((String.length s + chunk_size - 1)
                                        / chunk_size)) i) as Hi.
    rewrite Ej, length_seq in Hi.
    assert (Hlt : (i < (String.length s + chunk_size - 1) / chunk_size)%nat)
      by (apply Hi; discriminate).
    apply nth_error_nth with (d := O) in Ej.
    rewrite seq_nth in Ej by exact Hlt. simpl in Ej. subst j.
    rewrite length_slice_exact.
    split; [| intros Hnext]; nia.
Qed.

Lemma split_str_partition_witness :
  fold_right append "" (split_str "0010000001010" 6) = "0010000001010" /\
  split_str "0010000001010" 6 = ["001000"; "000101"; "0"]%list.
Proof.
  destruct (split_str_partition "0010000001010" 6) as (H & _).
  - lia.
  - split; [exact H | reflexivity].
Defined.

(** ** Unsigned and signed fields over a bit vector *)

Lemma to_int_bits (s : string) :
  all_bits s = true -> to_int s 2 = Return (bits_value s 0).
Proof.
  intros H. destruct s as [| c r]; [reflexivity |].
  apply (py_int_bits (String c r) H). discriminate.
Qed.

Lemma slice_past_end (a b : nat) (s : string) :
  (String.length s <= a)%nat -> slice a b s = "".
Proof.
  intros H.
  pose proof (length_slice_exact a b s) as Hlen.
  destruct (slice a b s); [reflexivity | simpl in Hlen; lia].
Qed.

(** An unsigned field read from a bit vector never fails: it is the binary
    value of the range, most significant bit first, which is below 2 to the
    width of the range, and 0 when the vector ends before the range
    starts. *)
Theorem unsigned_field_range (a b : nat) (bit_vector : string) :
  all_bits bit_vector = true ->
  exists v : Z,
    to_int (slice a b bit_vector) 2 = Return v /\
    v = bits_value (slice a b bit_vector) 0 /\
    0 <= v < 2 ^ Z.of_nat (b - a) /\
    ((String.length bit_vector <= a)%nat -> v = 0).
Proof.
  intros Hbits.
  exists (bits_value (slice a b bit_vector) 0).
  split; [apply to_int_bits, all_bits_slice, Hbits |].
  split; [reflexivity |].
  split.
  - pose proof (bits_value_range (slice a b bit_vector)) as Hr.
    pose proof (length_slice a b bit_vector) as Hlen.
    assert (2 ^ Z.of_nat (String.length (slice a b bit_vector))
            <= 2 ^ Z.of_nat (b - a))
      by (apply Z.pow_le_mono_r; lia).
    lia.
  - intros Hshort. now rewrite (slice_past_end a b bit_vector Hshort).
Qed.

Lemma unsigned_field_range_witness :
  exists v : Z,
    to_int (slice 8 38 (decode_ascii6 "15M67FC000G?ufbE`FepT@3n00Sa")) 2
    = Return v /\
    v = 366053209 /\
    0 <= v < 2 ^ 30.
Proof.
  destruct (unsigned_field_range 8 38
              (decode_ascii6 "15M67FC000G?ufbE`FepT@3n00Sa"))
    as (v & Hv & Hval & Hr & _).
  - vm_compute. reflexivity.
  - exists v. split; [exact Hv |]. split; [| exact Hr].
    rewrite Hval. vm_compute. reflexivity.
Defined.

Lemma signed_bits_value (s : string) :
  all_bits s = true ->
  s <> "" ->
  signed s
  = Return (if bits_value s 0 <? 2 ^ (Z.of_nat (String.length s) - 1)
            then bits_value s 0
            else bits_value s 0 - 2 ^ Z.of_nat (String.length s)).
Proof.
  intros Hbits Hne.
  destruct s as [| b r]; [congruence |].
  unfold signed. rewrite Hbits. f_equal.
  assert (Hlen : Z.of_nat (String.length (String b r)) - 1
                 = Z.of_nat (String.length r))
    by (cbn [String.length]; lia).
  assert (Hval : bits_value (String b r) 0
                 = (if (b =? "1")%char then 1 else 0)
                   * 2 ^ Z.of_nat (String.length r) + bits_value r 0)
    by (cbn [bits_value]; rewrite bits_value_acc; f_equal).
  pose proof (bits_value_range r) as Hr.
  rewrite Hlen.
  destruct (b =? "1")%char.
  - destruct (Z.ltb_spec (bits_value (String b r) 0)
                         (2 ^ Z.of_nat (String.length r))); [lia | reflexivity].
  - destruct (Z.ltb_spec (bits_value (String b r) 0)
                         (2 ^ Z.of_nat (String.length r))); [reflexivity | lia].
Qed.

(** Over a range of bits that is not empty, the signed reading and the
    unsigned reading agree below the sign bit and differ by 2 to the width
    from it on: the signed value is the unsigned one when that is less than
    half the range, and the unsigned one less 2 to the width otherwise. *)
Theorem signed_of_unsigned (s : string) :
  all_bits s = true ->
  s <> "" ->
  exists x u : Z,
    signed s = Return x /\
    to_int s 2 = Return u /\
    x = (if u <? 2 ^ (Z.of_nat (String.length s) - 1)
         then u
         else u - 2 ^ Z.of_nat (String.length s)).
Proof.
  intros Hbits Hne.
  eexists. exists (bits_value s 0).
  split; [apply (signed_bits_value s Hbits Hne) |].
  split; [apply to_int_bits, Hbits | reflexivity].
Qed.

Lemma signed_of_unsigned_witness :
  exists x u : Z,
    signed "11111100" = Return x /\
    to_int "11111100" 2 = Return u /\
    u = 252 /\ x = -4.
Proof.
  destruct (signed_of_unsigned "11111100") as (x & u & Hx & Hu & Hrel).
  - reflexivity.
  - discriminate.
  - exists x, u. split; [exact Hx |]. split; [exact Hu |].
    vm_compute in Hu. injection Hu as <-.
    split; [reflexivity | exact Hrel].
Defined.

(** ** checksum *)

Lemma ord_range (c : ascii) : 0 <= ord c < 256.
Proof.
  unfold ord. pose proof (N_ascii_bounded c). lia.
Qed.

Lemma ord_inj (c c' : ascii) : ord c = ord c' -> c = c'.
Proof.
  unfold ord. intros H. apply N2Z.inj in H.
  rewrite <- (ascii_N_embedding c), <- (ascii_N_embedding c'). now rewrite H.
Qed.

Lemma lxor_byte (a b : Z) :
  0 <= a < 256 -> 0 <= b < 256 -> 0 <= Z.lxor a b < 256.
Proof.
  intros Ha Hb.
  assert (Hnn : 0 <= Z.lxor a b) by (apply Z.lxor_nonneg; lia).
  split; [exact Hnn |].
  destruct (Z.eq_dec (Z.lxor a b) 0) as [-> | Hnz]; [lia |].
  change 256 with (2 ^ 8). apply Z.log2_lt_pow2; [lia |].
  pose proof (Z.log2_lxor a b ltac:(lia) ltac:(lia)) as Hlog.
  assert (Hla : Z.log2 a < 8).
  { destruct (Z.eq_dec a 0) as [-> | Hza]; [simpl; lia |].
    apply Z.log2_lt_pow2; lia. }
  assert (Hlb : Z.log2 b < 8).
  { destruct (Z.eq_dec b 0) as [-> | Hzb]; [simpl; lia |].
    apply Z.log2_lt_pow2; lia. }
  lia.
Qed.

Lemma checksum_loop_range (s : string) (c_sum : Z) :
  0 <= c_sum < 256 -> 0 <= checksum_loop s c_sum < 256.
Proof.
  revert c_sum. induction s as [| c s IH]; intros c_sum H; simpl.
  - exact H.
  - destruct (c =? "*")%char; [exact H |].
    apply IH, lxor_byte; [exact H | apply ord_range].
Qed.

Lemma checksum_loop_acc (s : string) (c_sum : Z) :
  checksum_loop s c_sum = Z.lxor c_sum (checksum_loop s 0).
Proof.
  revert c_sum. induction s as [| c s IH]; intros c_sum; cbn [checksum_loop].
  - now rewrite Z.lxor_0_r.
  - destruct (c =? "*")%char; [now rewrite Z.lxor_0_r |].
    rewrite IH, (IH (Z.lxor 0 (ord c))), Z.lxor_0_l, Z.lxor_assoc.
    reflexivity.
Qed.

Lemma checksum_loop_app (a rest : string) (c_sum : Z) :
  no_star a = true ->
  checksum_loop (a ++ rest) c_sum = checksum_loop rest (checksum_loop a c_sum).
Proof.
  revert c_sum. induction a as [| c a IH]; intros c_sum H; simpl in *.
  - reflexivity.
  - apply andb_true_iff in H as [Hc Ha].
    apply negb_true_iff in Hc. rewrite Hc. now apply IH.
Qed.

(** The checksum is one byte: the XOR of code points below 256 stays below
    256, so a declared checksum of 256 or more can never match. *)
Theorem checksum_byte (msg : string) : 0 <= checksum msg < 256.
Proof.
  unfold checksum. apply checksum_loop_range. lia.
Qed.

(** The checksum covers the characters between the first one and the first
    '*': neither the first character of the line nor anything from the '*'
    on has a part in it. *)
Theorem checksum_scope (first first' : ascii) (body tail tail' : string) :
  no_star body = true ->
  checksum (String first (body ++ String "*" tail))
  = checksum (String first' (body ++ String "*" tail')) /\
  checksum (String first (body ++ String "*" tail))
  = checksum (String first body).
Proof.
  intros H. unfold checksum, slice_from. cbn [str_drop].
  rewrite !(checksum_loop_app body _ 0 H). simpl.
  split; [reflexivity |].
  rewrite <- (app_empty_r body) at 2.
  now rewrite (checksum_loop_app body "" 0 H).
Qed.

Lemma checksum_scope_witness :
  checksum "!AIVDM,1,1,,B,6,0*13" = checksum "$AIVDM,1,1,,B,6,0*FF-any" /\
  checksum "!AIVDM,1,1,,B,6,0*13" = checksum "!AIVDM,1,1,,B,6,0".
Proof.
  apply (checksum_scope "!" "$" "AIVDM,1,1,,B,6,0" "13" "FF-any").
  reflexivity.
Defined.

(** Changing one character of the checked part to a different one, neither
    of the two being the delimiter '*', always changes the checksum.  (A
    character changed into '*' ends the checked part early, and the checksum
    may then stay the same.) *)
Theorem checksum_detects_one_change
    (first c c' : ascii) (before after : string) :
  no_star before = true ->
  c <> "*"%char ->
  c' <> "*"%char ->
  c <> c' ->
  checksum (String first (before ++ String c after))
  <> checksum (String first (before ++ String c' after)).
Proof.
  intros Hbefore Hc Hc' Hdiff. unfold checksum, slice_from. cbn [str_drop].
  rewrite !(checksum_loop_app before _ 0 Hbefore). cbn [checksum_loop].
  apply Ascii.eqb_neq in Hc, Hc'. rewrite Hc, Hc'.
  rewrite (checksum_loop_acc after (Z.lxor _ (ord c))),
          (checksum_loop_acc after (Z.lxor _ (ord c'))).
  intros H. apply Hdiff, ord_inj.
  apply Z.bits_inj'. intros n Hn.
  apply (f_equal (fun z => Z.testbit z n)) in H.
  rewrite !Z.lxor_spec in H.
  destruct (Z.testbit (checksum_loop before 0) n),
           (Z.testbit (checksum_loop after 0) n),
           (Z.testbit (ord c) n), (Z.testbit (ord c') n);
    simpl in H; congruence.
Qed.

Example checksum_change_into_star :
  checksum "!AA*00" = checksum "!*A*00".
Proof. reflexivity. Qed.

Lemma checksum_detects_one_change_witness :
  checksum "!AIVDM,1,1,,B,15M67FC000G?ufbE`FepT@3n00Sa,0*5C"
  <> checksum "!AIVDM,1,1,,B,15M67FC000G?ufbE`FepT@3o00Sa,0*5C".
Proof.
  apply (checksum_detects_one_change
           "!" "n" "o" "AIVDM,1,1,,B,15M67FC000G?ufbE`FepT@3" "00Sa,0*5C").
  - reflexivity.
  - discriminate.
  - discriminate.
  - discriminate.
Defined.

(** ** The armor decoder on and off its alphabet *)

Lemma alphabet_armor_char (ch : ascii) :
  alphabet_char ch = true -> armor_char ch = true.
Proof.
  unfold alphabet_char, armor_char. intros H.
  apply orb_true_iff in H as [H | H]; apply andb_true_iff in H as [H1 H2];
    apply Z.leb_le in H1, H2; apply andb_true_iff; split; apply Z.leb_le; lia.
Qed.

Lemma armor_value_alphabet_inj (c c' : ascii) :
  alphabet_char c = true -> alphabet_char c' = true ->
  armor_value c = armor_value c' -> c = c'.
Proof.
  unfold alphabet_char, armor_value. intros H H' Heq. apply ord_inj.
  apply orb_true_iff in H as [H | H]; apply andb_true_iff in H as [H1 H2];
    apply Z.leb_le in H1, H2;
    apply orb_true_iff in H' as [H' | H'];
    apply andb_true_iff in H' as [H1' H2'];
    apply Z.leb_le in H1', H2';
    destruct (Z.gtb_spec (ord c - 48) 40), (Z.gtb_spec (ord c' - 48) 40);
    lia.
Qed.

Lemma app_inj_length (a a' b b' : string) :
  String.length a = String.length a' ->
  a ++ b = a' ++ b' -> a = a' /\ b = b'.
Proof.
  revert a'. induction a as [| c a IH]; intros [| c' a'] Hlen H;
    simpl in *; try discriminate Hlen.
  - split; [reflexivity | exact H].
  - injection H as -> H. injection Hlen as Hlen.
    destruct (IH a' Hlen H) as [-> ->]. split; reflexivity.
Qed.

(** On the armor alphabet [decode_ascii6] loses nothing: two payloads with
    the same bit vector are the same payload. *)
Theorem decode_ascii6_alphabet_injective (a b : string) :
  alphabet a = true ->
  alphabet b = true ->
  decode_ascii6 a = decode_ascii6 b ->
  a = b.
Proof.
  revert b. induction a as [| c a IH]; intros [| c' b] Ha Hb H.
  - reflexivity.
  - simpl in Hb. apply andb_true_iff in Hb as [Hc' _].
    rewrite decode_ascii6_cons,
      (format_06b_armor_char c' (alphabet_armor_char c' Hc')) in H.
    discriminate H.
  - simpl in Ha. apply andb_true_iff in Ha as [Hc _].
    rewrite decode_ascii6_cons,
      (format_06b_armor_char c (alphabet_armor_char c Hc)) in H.
    discriminate H.
  - simpl in Ha, Hb.
    apply andb_true_iff in Ha as [Hc Ha], Hb as [Hc' Hb].
    rewrite !decode_ascii6_cons,
      (format_06b_armor_char c (alphabet_armor_char c Hc)),
      (format_06b_armor_char c' (alphabet_armor_char c' Hc')) in H.
    apply app_inj_length in H as [Hgroup Hrest]; [| reflexivity].
    f_equal.
    + apply (armor_value_alphabet_inj c c' Hc Hc').
      rewrite <- (six_bits_value (armor_value c)),
              <- (six_bits_value (armor_value c'));
        [now rewrite Hgroup | |];
        apply armor_value_range, alphabet_armor_char; assumption.
    + apply (IH b Ha Hb Hrest).
Qed.

Lemma decode_ascii6_alphabet_injective_witness :
  String "1" (String "5" "") = "15".
Proof.
  apply (decode_ascii6_alphabet_injective (String "1" (String "5" "")) "15");
    reflexivity.
Defined.

(** Every six-bit group is the image of a character of the alphabet. *)
Theorem decode_ascii6_alphabet_onto (v : Z) :
  0 <= v < 64 ->
  exists ch : ascii,
    alphabet_char ch = true /\
    decode_ascii6 (String ch "") = six_bits v.
Proof.
  intros Hv.
  exists (chr (if v <? 40 then v + 48 else v + 56)).
  rewrite <- (Z2Nat.id v) by lia.
  assert (Hn : (Z.to_nat v < 64)%nat) by lia.
  generalize dependent (Z.to_nat v). clear v Hv. intros n Hn.
  do 64 (destruct n as [| n]; [split; reflexivity |]). lia.
Qed.

Lemma decode_ascii6_alphabet_onto_witness :
  exists ch : ascii,
    alphabet_char ch = true /\ decode_ascii6 (String ch "") = "101000".
Proof.
  apply (decode_ascii6_alphabet_onto 40). lia.
Defined.

(** Off the alphabet two characters can share a group. *)
Example decode_ascii6_collision :
  decode_ascii6 "X" = decode_ascii6 "`".
Proof. reflexivity. Qed.

Lemma format_06b_chars (ch : ascii) :
  bits_or_signs (format_06b (armor_value ch)) = true /\
  all_bits (format_06b (armor_value ch)) = (48 <=? ord ch).
Proof.
  each_ascii ch; split; reflexivity.
Qed.

Lemma bits_or_signs_app (a b : string) :
  bits_or_signs (a ++ b) = bits_or_signs a && bits_or_signs b.
Proof.
  induction a as [| c a IH]; simpl; [reflexivity |].
  rewrite IH. now rewrite andb_assoc.
Qed.

(** Whatever the payload, [decode_ascii6] writes only the characters '0',
    '1' and '-', and at least six of them for each payload character; the
    result is a string of bits exactly when no payload character lies below
    '0'. *)
Theorem decode_ascii6_output (data : string) :
  bits_or_signs (decode_ascii6 data) = true /\
  (6 * String.length data <= String.length (decode_ascii6 data))%nat /\
  all_bits (decode_ascii6 data) = from_zero_up data.
Proof.
  induction data as [| ch data (IH1 & IH2 & IH3)].
  - repeat split; reflexivity || (simpl; lia).
  - rewrite decode_ascii6_cons.
    destruct (format_06b_chars ch) as (Hc1 & Hc2).
    pose proof (format_06b_width ch) as Hw.
    repeat split.
    + now rewrite bits_or_signs_app, Hc1, IH1.
    + rewrite length_app. simpl String.length. lia.
    + rewrite all_bits_app, Hc2, IH3. reflexivity.
Qed.

(** ** Reading fields off a bit vector *)

Lemma index_slice (i : nat) (s : string) :
  (i < String.length s)%nat -> index i s = Return (slice i (S i) s).
Proof.
  unfold index, slice. replace (S i - i)%nat with 1%nat by lia.
  revert s. induction i as [| i IH]; intros [| c s] H; simpl in H; try lia.
  - destruct s; reflexivity.
  - simpl. apply IH. lia.
Qed.

Lemma index_past_end (i : nat) (s : string) :
  (String.length s <= i)%nat -> index i s = Raise IndexError_string.
Proof.
  unfold index.
  revert s. induction i as [| i IH]; intros [| c s] H; simpl in H;
    try reflexivity; try lia.
  simpl. apply IH. lia.
Qed.

Lemma slice_not_empty (a b : nat) (s : string) :
  (a < b)%nat -> (a < String.length s)%nat -> slice a b s <> "".
Proof.
  intros Hab Ha Hempty.
  pose proof (length_slice_exact a b s) as Hlen.
  rewrite Hempty in Hlen. simpl in Hlen. lia.
Qed.

Lemma signed_slice_defined (a b : nat) (s : string) :
  all_bits s = true -> (a < b)%nat -> (a < String.length s)%nat ->
  exists x : Z, signed (slice a b s) = Return x.
Proof.
  intros Hbits Hab Ha. unfold signed.
  rewrite (all_bits_slice a b s Hbits).
  pose proof (slice_not_empty a b s Hab Ha) as Hne.
  destruct (slice a b s); [congruence | eexists; reflexivity].
Qed.

Lemma signed_slice_past_end (a b : nat) (s : string) :
  (String.length s <= a)%nat -> signed (slice a b s) = Raise InterpretError.
Proof.
  intros H. now rewrite (slice_past_end a b s H).
Qed.

Lemma all_bits_slice_from (a : nat) (s : string) :
  all_bits s = true -> all_bits (slice_from a s) = true.
Proof.
  apply all_bits_str_drop.
Qed.

Lemma bits_value_slice_range (a b : nat) (s : string) :
  0 <= bits_value (slice a b s) 0
  < 2 ^ Z.of_nat (Nat.min (b - a) (String.length s - a)).
Proof.
  rewrite <- length_slice_exact. apply bits_value_range.
Qed.

Lemma navigation_status_field (bit_vector : string) :
  exists label : string,
    getitem NAVIGATION_STATUS (bits_value (slice 38 42 bit_vector) 0)
    = Return label.
Proof.
  apply navigation_status_total.
  pose proof (bits_value_slice_range 38 42 bit_vector) as H.
  assert (2 ^ Z.of_nat (Nat.min (42 - 38) (String.length bit_vector - 38))
          <= 2 ^ 4) by (apply Z.pow_le_mono_r; lia).
  lia.
Qed.

Lemma maneuver_field (bit_vector : string) :
  0 <= bits_value (slice 143 145 bit_vector) 0 < 4 /\
  (bits_value (slice 143 145 bit_vector) 0 = 3 ->
   (145 <= String.length bit_vector)%nat) /\
  (bits_value (slice 143 145 bit_vector) 0 <> 3 ->
   exists label : string,
     getitem MANEUVER_INDICATOR (bits_value (slice 143 145 bit_vector) 0)
     = Return label).
Proof.
  pose proof (bits_value_slice_range 143 145 bit_vector) as H.
  assert (Hpow : 2 ^ Z.of_nat (Nat.min (145 - 143)
                                 (String.length bit_vector - 143))
                 <= 2 ^ 2) by (apply Z.pow_le_mono_r; lia).
  split; [lia |]. split.
  - intros H3.
    destruct (Nat.le_gt_cases 145 (String.length bit_vector)) as [| Hshort];
      [assumption |].
    assert (Hsmall : 2 ^ Z.of_nat (Nat.min (145 - 143)
                                     (String.length bit_vector - 143))
                     <= 2 ^ 1) by (apply Z.pow_le_mono_r; lia).
    lia.
  - intros Hn3.
    assert (Hcases : bits_value (slice 143 145 bit_vector) 0 = 0 \/
                     bits_value (slice 143 145 bit_vector) 0 = 1 \/
                     bits_value (slice 143 145 bit_vector) 0 = 2) by lia.
    destruct Hcases as [-> | [-> | ->]]; eexists; reflexivity.
Qed.

(** Rewrite the reads that succeed on a vector of bits, then run the
    binds. *)
Ltac read_bits Hbits :=
  repeat (rewrite ?to_int_bits
            by auto using all_bits_slice, all_bits_slice_from;
          cbn [bind]).

(** ** Types 1, 2 and 3 on a bit vector *)

(** The three ways [decode_msg_1] ends on a vector of bits. *)
Lemma decode_msg_1_bits_cases (bit_vector : string) :
  all_bits bit_vector = true ->
  ((149 <= String.length bit_vector)%nat /\
   bits_value (slice 143 145 bit_vector) 0 <> 3 /\
   exists d : pyval,
     decode_msg_1 bit_vector = Return d /\
     field "type" d = Some (PInt (bits_value (slice 0 6 bit_vector) 0)))
  \/
  (bits_value (slice 143 145 bit_vector) 0 = 3 /\
   decode_msg_1 bit_vector = Raise (KeyError 3))
  \/
  ((String.length bit_vector < 149)%nat /\
   bits_value (slice 143 145 bit_vector) 0 <> 3 /\
   (decode_msg_1 bit_vector = Raise IndexError_string \/
    decode_msg_1 bit_vector = Raise InterpretError)).
Proof.
  intros Hbits.
  destruct (navigation_status_field bit_vector) as (nav & Hnav).
  destruct (maneuver_field bit_vector) as (_ & Hman3 & Hman).
  destruct (Z.eq_dec (bits_value (slice 143 145 bit_vector) 0) 3)
    as [H3 | Hn3].
  - right. left. split; [exact H3 |].
    pose proof (Hman3 H3) as Hlen.
    destruct (signed_slice_defined 42 50 bit_vector Hbits) as (turn & Hturn);
      [lia | lia |].
    destruct (signed_slice_defined 61 89 bit_vector Hbits) as (lon & Hlon);
      [lia | lia |].
    destruct (signed_slice_defined 89 116 bit_vector Hbits) as (lat & Hlat);
      [lia | lia |].
    unfold decode_msg_1. read_bits Hbits.
    rewrite Hnav, Hturn. read_bits Hbits.
    rewrite (index_slice 60) by lia. read_bits Hbits.
    rewrite Hlon, Hlat. read_bits Hbits.
    rewrite H3. reflexivity.
  - destruct (Hman Hn3) as (man & Hmanl).
    destruct (Nat.le_gt_cases 149 (String.length bit_vector))
      as [Hlen | Hshort].
    + left. split; [exact Hlen |]. split; [exact Hn3 |].
      destruct (signed_slice_defined 42 50 bit_vector Hbits) as (turn & Hturn);
        [lia | lia |].
      destruct (signed_slice_defined 61 89 bit_vector Hbits) as (lon & Hlon);
        [lia | lia |].
      destruct (signed_slice_defined 89 116 bit_vector Hbits) as (lat & Hlat);
        [lia | lia |].
      unfold decode_msg_1. read_bits Hbits.
      rewrite Hnav, Hturn. read_bits Hbits.
      rewrite (index_slice 60) by lia. read_bits Hbits.
      rewrite Hlon, Hlat. read_bits Hbits.
      rewrite Hmanl. read_bits Hbits.
      rewrite (index_slice 148) by lia. read_bits Hbits.
      eexists. split; reflexivity.
    + right. right. split; [exact Hshort |]. split; [exact Hn3 |].
      unfold decode_msg_1. read_bits Hbits. rewrite Hnav. cbn [bind].
      destruct (Nat.le_gt_cases (String.length bit_vector) 42) as [H42 | H42].
      { right. now rewrite (signed_slice_past_end 42 50 _ H42). }
      destruct (signed_slice_defined 42 50 bit_vector Hbits) as (turn & Hturn);
        [lia | lia |].
      rewrite Hturn. read_bits Hbits.
      destruct (Nat.le_gt_cases (String.length bit_vector) 60) as [H60 | H60].
      { left. now rewrite (index_past_end 60 _ H60). }
      rewrite (index_slice 60) by lia. read_bits Hbits.
      destruct (Nat.le_gt_cases (String.length bit_vector) 61) as [H61 | H61].
      { right. now rewrite (signed_slice_past_end 61 89 _ H61). }
      destruct (signed_slice_defined 61 89 bit_vector Hbits) as (lon & Hlon);
        [lia | lia |].
      rewrite Hlon. cbn [bind].
      destruct (Nat.le_gt_cases (String.length bit_vector) 89) as [H89 | H89].
      { right. now rewrite (signed_slice_past_end 89 116 _ H89). }
      destruct (signed_slice_defined 89 116 bit_vector Hbits) as (lat & Hlat);
        [lia | lia |].
      rewrite Hlat. read_bits Hbits.
      rewrite Hmanl. cbn [bind].
      left. now rewrite (index_past_end 148) by lia.
Qed.

(** On a vector of bits [decode_msg_1] (and so [decode_msg_2] and
    [decode_msg_3]) returns a message exactly when the vector has at least
    149 bits and the maneuver code is not 3.  When it fails it raises
    [KeyError] for maneuver code 3, and otherwise [IndexError] or the error
    of reading an empty signed range. *)
Theorem decode_msg_1_on_bits (bit_vector : string) :
  all_bits bit_vector = true ->
  ((exists d : pyval, decode_msg_1 bit_vector = Return d)
   <-> (149 <= String.length bit_vector)%nat /\
       bits_value (slice 143 145 bit_vector) 0 <> 3) /\
  (forall e : exn,
     decode_msg_1 bit_vector = Raise e ->
     e = KeyError 3 \/ e = IndexError_string \/ e = InterpretError) /\
  decode_msg_2 bit_vector = decode_msg_1 bit_vector /\
  decode_msg_3 bit_vector = decode_msg_1 bit_vector.
Proof.
  intros Hbits.
  destruct (decode_msg_1_bits_cases bit_vector Hbits)
    as [(Hlen & Hn3 & d & Hd & _) | [(H3 & Hraise) | (Hshort & Hn3 & Hraise)]].
  - split; [split | split; [| split; reflexivity]].
    + intros _. split; [exact Hlen | exact Hn3].
    + intros _. exists d. exact Hd.
    + intros e He. rewrite Hd in He. discriminate He.
  - split; [split | split; [| split; reflexivity]].
    + intros (d & Hd). rewrite Hraise in Hd. discriminate Hd.
    + intros (_ & Hn3). contradiction.
    + intros e He. rewrite Hraise in He. injection He as <-. now left.
  - split; [split | split; [| split; reflexivity]].
    + intros (d & Hd). destruct Hraise as [Hr | Hr];
        rewrite Hr in Hd; discriminate Hd.
    + intros (Hlen & _). lia.
    + intros e He. destruct Hraise as [Hr | Hr];
        rewrite Hr in He; injection He as <-; auto.
Qed.

Lemma decode_msg_1_on_bits_witness :
  exists d : pyval,
    decode_msg_1 (decode_ascii6 "15M67FC000G?ufbE`FepT@3n00Sa") = Return d.
Proof.
  destruct (decode_msg_1_on_bits (decode_ascii6 "15M67FC000G?ufbE`FepT@3n00Sa"))
    as ((_ & Hback) & _).
  - vm_compute. reflexivity.
  - apply Hback. split.
    + apply Nat.leb_le. reflexivity.
    + vm_compute. discriminate.
Defined.

(** ** Type 4 on a bit vector *)

Lemma signed_six_bits (a : nat) (s : string) :
  all_bits s = true ->
  (a + 6 <= String.length s)%nat ->
  signed (slice a (a + 6) s)
  = Return (if bits_value (slice a (a + 6) s) 0 <? 32
            then bits_value (slice a (a + 6) s) 0
            else bits_value (slice a (a + 6) s) 0 - 64).
Proof.
  intros Hbits Hlen.
  rewrite (signed_bits_value _ (all_bits_slice a (a + 6) s Hbits))
    by (apply slice_not_empty; lia).
  rewrite length_slice_exact.
  replace (Nat.min (a + 6 - a) (String.length s - a)) with 6%nat by lia.
  reflexivity.
Qed.

(** The two ways [decode_msg_4] ends on a vector of bits. *)
Lemma decode_msg_4_bits_cases (bit_vector : string) :
  all_bits bit_vector = true ->
  ((149 <= String.length bit_vector)%nat /\
   exists d : pyval,
     decode_msg_4 bit_vector = Return d /\
     field "minute" d
     = Some (PInt (bits_value (slice 66 72 bit_vector) 0)) /\
     field "lon" d
     = Some (PFloat (scale_600000
                       (if bits_value (slice 66 72 bit_vector) 0 <? 32
                        then bits_value (slice 66 72 bit_vector) 0
                        else bits_value (slice 66 72 bit_vector) 0 - 64))) /\
     field "epfd" d
     = Some (PTuple
               [PInt (bits_value (slice 134 138 bit_vector) 0);
                PStr (match lookup (bits_value (slice 134 138 bit_vector) 0)
                              EPFD_TYPE with
                      | Some label => label
                      | None => UNDEFINED
                      end)]))
  \/
  ((String.length bit_vector < 149)%nat /\
   decode_msg_4 bit_vector = Raise IndexError_string).
Proof.
  intros Hbits.
  destruct (Nat.le_gt_cases 149 (String.length bit_vector)) as [Hlen | Hshort].
  - left. split; [exact Hlen |].
    unfold decode_msg_4. read_bits Hbits.
    rewrite (index_slice 78) by lia. read_bits Hbits.
    pose proof (signed_six_bits 66 bit_vector Hbits ltac:(lia)) as Hsigned.
    change (66 + 6)%nat with 72%nat in Hsigned.
    rewrite Hsigned. cbn [bind].
    rewrite lookup_with_fallback. cbn [bind].
    rewrite (index_slice 148) by lia. read_bits Hbits.
    eexists. repeat split; reflexivity.
  - right. split; [exact Hshort |].
    unfold decode_msg_4. read_bits Hbits.
    destruct (Nat.le_gt_cases (String.length bit_vector) 78) as [H78 | H78].
    { now rewrite (index_past_end 78 _ H78). }
    rewrite (index_slice 78) by lia. read_bits Hbits.
    destruct (signed_slice_defined 66 72 bit_vector Hbits) as (raw & Hraw);
      [lia | lia |].
    rewrite Hraw. cbn [bind].
    rewrite lookup_with_fallback. cbn [bind].
    now rewrite (index_past_end 148) by lia.
Qed.

(** On a vector of bits [decode_msg_4] returns a message exactly when the
    vector has at least 149 bits, and otherwise raises [IndexError]; the
    EPFD lookup never fails, an unknown code getting the label
    "Undefined". *)
Theorem decode_msg_4_on_bits (bit_vector : string) :
  all_bits bit_vector = true ->
  ((exists d : pyval, decode_msg_4 bit_vector = Return d)
   <-> (149 <= String.length bit_vector)%nat) /\
  (forall e : exn,
     decode_msg_4 bit_vector = Raise e -> e = IndexError_string) /\
  (forall d : pyval,
     decode_msg_4 bit_vector = Return d ->
     field "epfd" d
     = Some (PTuple
               [PInt (bits_value (slice 134 138 bit_vector) 0);
                PStr (match lookup (bits_value (slice 134 138 bit_vector) 0)
                              EPFD_TYPE with
                      | Some label => label
                      | None => UNDEFINED
                      end)])).
Proof.
  intros Hbits.
  destruct (decode_msg_4_bits_cases bit_vector Hbits)
    as [(Hlen & d & Hd & _ & _ & Hepfd) | (Hshort & Hraise)].
  - split; [split | split].
    + intros _. exact Hlen.
    + intros _. exists d. exact Hd.
    + intros e He. rewrite Hd in He. discriminate He.
    + intros d' Hd'. rewrite Hd in Hd'. injection Hd' as <-. exact Hepfd.
  - split; [split | split].
    + intros (d & Hd). rewrite Hraise in Hd. discriminate Hd.
    + intros Hlen. lia.
    + intros e He. rewrite Hraise in He. now injection He as <-.
    + intros d Hd. rewrite Hraise in Hd. discriminate Hd.
Qed.

Lemma decode_msg_4_on_bits_witness :
  exists d : pyval,
    decode_msg_4 (decode_ascii6 "403OviQuMGCqWrRO9>E6fE700@GO") = Return d /\
    field "epfd" d = Some (PTuple [PInt 7; PStr "Surveyed"]).
Proof.
  destruct (decode_msg_4_on_bits (decode_ascii6 "403OviQuMGCqWrRO9>E6fE700@GO"))
    as ((_ & Hback) & _ & Hepfd).
  - vm_compute. reflexivity.
  - destruct Hback as (d & Hd).
    + apply Nat.leb_le. reflexivity.
    + exists d. split; [exact Hd |]. exact (Hepfd d Hd).
Defined.

(** In a type-4 message decoded from a vector of bits the longitude and the
    latitude are the six bits of the minute field read as a signed number:
    the minute itself below 32, the minute less 64 from 32 on, divided by
    600000.0. *)
Theorem decode_msg_4_position_is_minute (bit_vector : string) (d : pyval) :
  all_bits bit_vector = true ->
  decode_msg_4 bit_vector = Return d ->
  exists minute : Z,
    0 <= minute < 64 /\
    field "minute" d = Some (PInt minute) /\
    field "lon" d
    = Some (PFloat (scale_600000 (if minute <? 32 then minute
                                  else minute - 64))) /\
    field "lat" d = field "lon" d.
Proof.
  intros Hbits Hd.
  destruct (decode_msg_4_bits_cases bit_vector Hbits)
    as [(Hlen & d' & Hd' & Hminute & Hlon & _) | (_ & Hraise)].
  - rewrite Hd in Hd'. injection Hd' as <-.
    exists (bits_value (slice 66 72 bit_vector) 0).
    split; [| split; [exact Hminute | split; [exact Hlon |]]].
    + pose proof (bits_value_slice_range 66 72 bit_vector) as H.
      assert (2 ^ Z.of_nat (Nat.min (72 - 66) (String.length bit_vector - 66))
              <= 2 ^ 6) by (apply Z.pow_le_mono_r; lia).
      lia.
    + unfold decode_msg_4 in Hd. peel Hd. injection Hd as <-.
      match goal with
      | E1 : signed _ = Return ?x, E2 : signed _ = Return ?y |- _ =>
          assert (x = y) by congruence; subst y
      end.
      reflexivity.
  - rewrite Hraise in Hd. discriminate Hd.
Qed.

Lemma decode_msg_4_position_is_minute_witness :
  exists d : pyval,
    decode_msg_4 (decode_ascii6 "403OviQuMGCqWrRO9>E6fE700@GO") = Return d /\
    field "minute" d = Some (PInt 57) /\
    field "lon" d = Some (PFloat (scale_600000 (-7))).
Proof.
  assert (Hd : exists d,
             decode_msg_4 (decode_ascii6 "403OviQuMGCqWrRO9>E6fE700@GO")
             = Return d)
    by (vm_compute; eexists; reflexivity).
  destruct Hd as (d & Hd).
  destruct (decode_msg_4_position_is_minute
              (decode_ascii6 "403OviQuMGCqWrRO9>E6fE700@GO") d)
    as (minute & _ & Hminute & Hlon & _).
  - vm_compute. reflexivity.
  - exact Hd.
  - exists d. split; [exact Hd |].
    vm_compute in Hd. injection Hd as <-.
    vm_compute in Hminute. injection Hminute as <-.
    split; [reflexivity | exact Hlon].
Defined.

(** ** Type 18 on a bit vector *)

(** Read bit [i]: either the vector is too short, or the flag is read. *)
Ltac try_index i s Hbits :=
  let H := fresh "Hidx" in
  destruct (Nat.le_gt_cases (String.length s) i) as [H | H];
  [ rewrite (index_past_end i s H); cbn [bind]
  | rewrite (index_slice i s H); read_bits Hbits ].

(** The ways [decode_msg_18] ends on a vector of bits. *)
Lemma decode_msg_18_bits_cases (bit_vector : string) :
  all_bits bit_vector = true ->
  ((148 <= String.length bit_vector)%nat /\
   exists d : pyval,
     decode_msg_18 bit_vector = Return d /\
     field "type" d = Some (PInt (bits_value (slice 0 6 bit_vector) 0)))
  \/
  ((String.length bit_vector < 148)%nat /\
   (decode_msg_18 bit_vector = Raise IndexError_string \/
    decode_msg_18 bit_vector = Raise InterpretError)).
Proof.
  intros Hbits.
  destruct (Nat.le_gt_cases 148 (String.length bit_vector)) as [Hlen | Hshort].
  - left. split; [exact Hlen |].
    destruct (signed_slice_defined 56 85 bit_vector Hbits) as (lon & Hlon);
      [lia | lia |].
    destruct (signed_slice_defined 85 112 bit_vector Hbits) as (lat & Hlat);
      [lia | lia |].
    unfold decode_msg_18, flag. read_bits Hbits.
    rewrite (index_slice 55) by lia. read_bits Hbits.
    rewrite Hlon, Hlat. read_bits Hbits.
    rewrite (index_slice 141) by lia. read_bits Hbits.
    rewrite (index_slice 142) by lia. read_bits Hbits.
    rewrite (index_slice 143) by lia. read_bits Hbits.
    rewrite (index_slice 144) by lia. read_bits Hbits.
    rewrite (index_slice 145) by lia. read_bits Hbits.
    rewrite (index_slice 146) by lia. read_bits Hbits.
    rewrite (index_slice 147) by lia. read_bits Hbits.
    eexists. split; reflexivity.
  - right. split; [exact Hshort |].
    unfold decode_msg_18, flag. read_bits Hbits.
    try_index 55%nat bit_vector Hbits; [now left |].
    destruct (Nat.le_gt_cases (String.length bit_vector) 56) as [H56 | H56].
    { right. now rewrite (signed_slice_past_end 56 85 _ H56). }
    destruct (signed_slice_defined 56 85 bit_vector Hbits) as (lon & Hlon);
      [lia | lia |].
    rewrite Hlon. cbn [bind].
    destruct (Nat.le_gt_cases (String.length bit_vector) 85) as [H85 | H85].
    { right. now rewrite (signed_slice_past_end 85 112 _ H85). }
    destruct (signed_slice_defined 85 112 bit_vector Hbits) as (lat & Hlat);
      [lia | lia |].
    rewrite Hlat. read_bits Hbits.
    try_index 141%nat bit_vector Hbits; [now left |].
    try_index 142%nat bit_vector Hbits; [now left |].
    try_index 143%nat bit_vector Hbits; [now left |].
    try_index 144%nat bit_vector Hbits; [now left |].
    try_index 145%nat bit_vector Hbits; [now left |].
    try_index 146%nat bit_vector Hbits; [now left |].
    try_index 147%nat bit_vector Hbits; [now left |].
    lia.
Qed.

(** On a vector of bits [decode_msg_18] returns a message exactly when the
    vector has at least 148 bits; on a shorter one it raises [IndexError] or
    the error of reading an empty signed range. *)
Theorem decode_msg_18_on_bits (bit_vector : string) :
  all_bits bit_vector = true ->
  ((exists d : pyval, decode_msg_18 bit_vector = Return d)
   <-> (148 <= String.length bit_vector)%nat) /\
  (forall e : exn,
     decode_msg_18 bit_vector = Raise e ->
     e = IndexError_string \/ e = InterpretError).
Proof.
  intros Hbits.
  destruct (decode_msg_18_bits_cases bit_vector Hbits)
    as [(Hlen & d & Hd & _) | (Hshort & Hraise)].
  - split; [split |].
    + intros _. exact Hlen.
    + intros _. exists d. exact Hd.
    + intros e He. rewrite Hd in He. discriminate He.
  - split; [split |].
    + intros (d & Hd). destruct Hraise as [Hr | Hr];
        rewrite Hr in Hd; discriminate Hd.
    + intros Hlen. lia.
    + intros e He. destruct Hraise as [Hr | Hr];
        rewrite Hr in He; injection He as <-; auto.
Qed.

Lemma decode_msg_18_on_bits_witness :
  exists d : pyval,
    decode_msg_18 (decode_ascii6 "B52KlJP00=l4be5ItJ6r3wVUWP06") = Return d.
Proof.
  destruct (decode_msg_18_on_bits (decode_ascii6 "B52KlJP00=l4be5ItJ6r3wVUWP06"))
    as ((_ & Hback) & _).
  - vm_compute. reflexivity.
  - apply Hback. apply Nat.leb_le. reflexivity.
Defined.

(** In every type-18 message returned, the longitude is the signed value of
    the 29 bits [56:85) and the latitude that of the 27 bits [85:112), each
    divided by 600000.0. *)
Theorem decode_msg_18_position_range (bit_vector : string) (d : pyval) :
  decode_msg_18 bit_vector = Return d ->
  exists lon lat : Z,
    signed (slice 56 85 bit_vector) = Return lon /\
    signed (slice 85 112 bit_vector) = Return lat /\
    field "lon" d = Some (PFloat (scale_600000 lon)) /\
    field "lat" d = Some (PFloat (scale_600000 lat)) /\
    - 2 ^ 28 <= lon < 2 ^ 28 /\
    - 2 ^ 26 <= lat < 2 ^ 26.
Proof.
  intros H. unfold decode_msg_18 in H. peel H. injection H as <-.
  match goal with
  | Elon : signed (slice 56 85 _) = Return ?x,
    Elat : signed (slice 85 112 _) = Return ?y |- _ =>
      exists x, y;
      pose proof (signed_slice_range _ _ _ _ Elon) as Hlon;
      pose proof (signed_slice_range _ _ _ _ Elat) as Hlat
  end.
  repeat split; try assumption; try reflexivity;
    simpl in Hlon, Hlat; lia.
Qed.

Lemma decode_msg_18_position_range_witness :
  exists (d : pyval) (lon lat : Z),
    decode_msg_18 (decode_ascii6 "B52KlJP00=l4be5ItJ6r3wVUWP06") = Return d /\
    field "lon" d = Some (PFloat (scale_600000 lon)) /\
    - 2 ^ 28 <= lon < 2 ^ 28.
Proof.
  assert (Hd : exists d,
             decode_msg_18 (decode_ascii6 "B52KlJP00=l4be5ItJ6r3wVUWP06")
             = Return d)
    by (vm_compute; eexists; reflexivity).
  destruct Hd as (d & Hd).
  destruct (decode_msg_18_position_range
              (decode_ascii6 "B52KlJP00=l4be5ItJ6r3wVUWP06") d Hd)
    as (lon & lat & _ & _ & Flon & _ & Rlon & _).
  exists d, lon, lat. repeat split; assumption || apply Rlon.
Defined.

(** ** The packed text of a bit vector *)

Lemma ascii6_on_bits (data : string) (strip : bool) :
  all_bits data = true ->
  ascii6 data strip = Return (ascii6_text data strip).
Proof.
  intros Hbits. unfold ascii6, ascii6_text.
  rewrite (ascii6_loop_text _ _ _ (split_str_chunks data Hbits)).
  reflexivity.
Qed.

Lemma ord_chr (n : Z) : 0 <= n < 256 -> ord (chr n) = n.
Proof.
  intros H. unfold ord, chr.
  rewrite N_ascii_embedding by lia. lia.
Qed.

Lemma text_code_range (chunk : string) :
  (String.length chunk <= 6)%nat -> 32 <= ord (text_code chunk) <= 95.
Proof.
  intros Hlen. unfold text_code.
  pose proof (bits_value_range chunk) as Hr.
  assert (2 ^ Z.of_nat (String.length chunk) <= 2 ^ 6)
    by (apply Z.pow_le_mono_r; lia).
  destruct (Z.ltb_spec (bits_value chunk 0) 32); rewrite ord_chr; lia.
Qed.

Lemma until_filler_incl (chars : list ascii) (c : ascii) :
  In c (until_filler chars) -> In c chars.
Proof.
  induction chars as [| x chars IH]; simpl; [tauto |].
  destruct (x =? "@")%char; simpl; [tauto |].
  intros [H | H]; auto.
Qed.

Lemma until_filler_length (chars : list ascii) :
  (List.length (until_filler chars) <= List.length chars)%nat.
Proof.
  induction chars as [| x chars IH]; simpl; [lia |].
  destruct (x =? "@")%char; simpl; lia.
Qed.

Lemma length_string_of_list_ascii (l : list ascii) :
  String.length (string_of_list_ascii l) = List.length l.
Proof.
  induction l as [| c l IH]; simpl; [reflexivity | now rewrite IH].
Qed.

(** The text [ascii6] decodes from a vector of bits is made of code points
    32 to 95 only (space to underscore), and has at most one character per
    chunk of six bits. *)
Theorem ascii6_characters (data : string) (strip : bool) (text : string) :
  all_bits data = true ->
  ascii6 data strip = Return text ->
  (forall c : ascii,
     In c (list_ascii_of_string text) -> 32 <= ord c <= 95) /\
  (String.length text <= (String.length data + 5) / 6)%nat.
Proof.
  intros Hbits H.
  rewrite (ascii6_on_bits data strip Hbits) in H. injection H as <-.
  unfold ascii6_text.
  rewrite list_ascii_of_string_of_list_ascii, length_string_of_list_ascii.
  assert (Hall : forall c, In c (map text_code (split_str data 6)) ->
                           32 <= ord c <= 95).
  { intros c Hin. apply in_map_iff in Hin as (chunk & <- & Hchunk).
    apply text_code_range.
    unfold split_str in Hchunk. apply in_map_iff in Hchunk as (i & <- & _).
    pose proof (length_slice (i * 6) ((i + 1) * 6) data). lia. }
  assert (Hcount : List.length (map text_code (split_str data 6))
                   = ((String.length data + 5) / 6)%nat).
  { rewrite length_map, split_str_count. f_equal. lia. }
  destruct strip.
  - split.
    + intros c Hin. apply Hall, until_filler_incl, Hin.
    + rewrite <- Hcount. apply until_filler_length.
  - split; [exact Hall | now rewrite Hcount].
Qed.

Lemma ascii6_characters_witness :
  ascii6 "001000000101001100001100001111" true = Return "HELLO" /\
  (String.length "HELLO" <= 5)%nat.
Proof.
  destruct (ascii6_characters "001000000101001100001100001111" true "HELLO")
    as (_ & Hlen).
  - reflexivity.
  - reflexivity.
  - split; [reflexivity | exact Hlen].
Defined.

(** ** Type 5 on a bit vector *)

Lemma epfd_field (bit_vector : string) :
  0 <= bits_value (slice 270 274 bit_vector) 0 < 16 /\
  (bits_value (slice 270 274 bit_vector) 0 <= 8 ->
   exists label : string,
     getitem EPFD_TYPE (bits_value (slice 270 274 bit_vector) 0)
     = Return label) /\
  (9 <= bits_value (slice 270 274 bit_vector) 0 ->
   getitem EPFD_TYPE (bits_value (slice 270 274 bit_vector) 0)
   = Raise (KeyError (bits_value (slice 270 274 bit_vector) 0))) /\
  ((String.length bit_vector <= 270)%nat ->
   bits_value (slice 270 274 bit_vector) 0 = 0).
Proof.
  pose proof (bits_value_slice_range 270 274 bit_vector) as H.
  assert (Hpow : 2 ^ Z.of_nat (Nat.min (274 - 270)
                                 (String.length bit_vector - 270))
                 <= 2 ^ 4) by (apply Z.pow_le_mono_r; lia).
  split; [lia |].
  generalize dependent (bits_value (slice 270 274 bit_vector) 0).
  intros e He. split; [| split].
  - intros H8.
    assert (Hcases : e = 0 \/ e = 1 \/ e = 2 \/ e = 3 \/ e = 4 \/ e = 5 \/
                     e = 6 \/ e = 7 \/ e = 8) by lia.
    repeat (destruct Hcases as [-> | Hcases]; [eexists; reflexivity |]).
    subst e. eexists. reflexivity.
  - intros H9.
    assert (Hcases : e = 9 \/ e = 10 \/ e = 11 \/ e = 12 \/ e = 13 \/
                     e = 14 \/ e = 15) by lia.
    repeat (destruct Hcases as [-> | Hcases]; [reflexivity |]).
    subst e. reflexivity.
  - intros Hshort.
    replace (Nat.min (274 - 270) (String.length bit_vector - 270))
      with 0%nat in He by lia.
    simpl in He. lia.
Qed.

(** The two ways [decode_msg_5] ends on a vector of bits. *)
Lemma decode_msg_5_bits_cases (bit_vector : string) :
  all_bits bit_vector = true ->
  (bits_value (slice 270 274 bit_vector) 0 <= 8 /\
   exists d : pyval,
     decode_msg_5 bit_vector = Return d /\
     field "shiptype" d
     = Some (PTuple
               [PInt (bits_value (slice 66 72 bit_vector) 0);
                PStr (match lookup (bits_value (slice 66 72 bit_vector) 0)
                              SHIP_TYPE with
                      | Some label => label
                      | None => UNDEFINED
                      end)]))
  \/
  (9 <= bits_value (slice 270 274 bit_vector) 0 /\
   decode_msg_5 bit_vector
   = Raise (KeyError (bits_value (slice 270 274 bit_vector) 0))).
Proof.
  intros Hbits.
  destruct (epfd_field bit_vector) as (_ & Hlow & Hhigh & _).
  assert (Hstart :
    forall k : string -> result pyval,
      (ship_type_label <-
         (if contains SHIP_TYPE (bits_value (slice 66 72 bit_vector) 0)
          then getitem SHIP_TYPE (bits_value (slice 66 72 bit_vector) 0)
          else Return UNDEFINED) ;;
       k ship_type_label)
      = k (match lookup (bits_value (slice 66 72 bit_vector) 0) SHIP_TYPE with
           | Some label => label
           | None => UNDEFINED
           end)).
  { intros k. rewrite lookup_with_fallback. reflexivity. }
  destruct (Z.le_gt_cases (bits_value (slice 270 274 bit_vector) 0) 8)
    as [H8 | H9].
  - left. split; [exact H8 |].
    destruct (Hlow H8) as (label & Hlabel).
    unfold decode_msg_5. read_bits Hbits.
    rewrite !ascii6_on_bits by auto using all_bits_slice, all_bits_slice_from.
    cbn [bind]. rewrite Hstart. read_bits Hbits.
    rewrite Hlabel. read_bits Hbits.
    eexists. split; reflexivity.
  - right. split; [lia |].
    unfold decode_msg_5. read_bits Hbits.
    rewrite !ascii6_on_bits by auto using all_bits_slice, all_bits_slice_from.
    cbn [bind]. rewrite Hstart. read_bits Hbits.
    rewrite Hhigh by lia. reflexivity.
Qed.

(** On a vector of bits [decode_msg_5] asks for no minimum length: it
    returns a message exactly when the EPFD code in bits [270:274) is at
    most 8, and raises [KeyError] with that code otherwise.  A vector that
    ends before bit 270 is always decoded, its missing fields being 0 or
    empty; the ship type lookup never fails. *)
Theorem decode_msg_5_on_bits (bit_vector : string) :
  all_bits bit_vector = true ->
  ((exists d : pyval, decode_msg_5 bit_vector = Return d)
   <-> bits_value (slice 270 274 bit_vector) 0 <= 8) /\
  (forall e : exn,
     decode_msg_5 bit_vector = Raise e ->
     e = KeyError (bits_value (slice 270 274 bit_vector) 0)) /\
  ((String.length bit_vector <= 270)%nat ->
   exists d : pyval, decode_msg_5 bit_vector = Return d).
Proof.
  intros Hbits.
  destruct (epfd_field bit_vector) as (_ & _ & _ & Hshort).
  destruct (decode_msg_5_bits_cases bit_vector Hbits)
    as [(H8 & d & Hd & _) | (H9 & Hraise)].
  - split; [split | split].
    + intros _. exact H8.
    + intros _. exists d. exact Hd.
    + intros e He. rewrite Hd in He. discriminate He.
    + intros _. exists d. exact Hd.
  - split; [split | split].
    + intros (d & Hd). rewrite Hraise in Hd. discriminate Hd.
    + intros H8. lia.
    + intros e He. rewrite Hraise in He. now injection He as <-.
    + intros Hlen. rewrite (Hshort Hlen) in H9. lia.
Qed.

Lemma decode_msg_5_on_bits_witness :
  exists d : pyval,
    decode_msg_5 (decode_ascii6 "5") = Return d.
Proof.
  destruct (decode_msg_5_on_bits (decode_ascii6 "5")) as (_ & _ & Hshort).
  - reflexivity.
  - apply Hshort. apply Nat.leb_le. reflexivity.
Defined.

(** ** The exceptions of the decoders *)

Lemma raises_only_Return {A : Type} (P : exn -> Prop) (a : A) :
  raises_only P (Return a).
Proof. intros e H. discriminate H. Qed.

Lemma raises_only_bind {A B : Type} (P : exn -> Prop)
    (m : result A) (k : A -> result B) :
  raises_only P m -> (forall a, raises_only P (k a)) ->
  raises_only P (bind m k).
Proof.
  intros Hm Hk. destruct m as [a | e]; simpl.
  - apply Hk.
  - intros e' H. apply (Hm e'). congruence.
Qed.

Lemma py_int_raises (s : string) (base : Z) :
  raises_only (fun e => e = ValueError_int base s) (py_int s base).
Proof.
  intros e. unfold py_int.
  destruct (lstrip s) as [| c r]; cbv zeta.
  - simpl. congruence.
  - destruct (match String c r with
              | String "+"%char r0 => (1, r0)
              | String "-"%char r0 => (-1, r0)
              | _ => (1, String c r)
              end) as [sign s2].
    destruct (skip_prefix base s2) as [| c3 r3].
    + destruct (scan_digits base "" false 0 0) as [[[v [| n]] rest] |];
        try congruence.
      destruct (all_space rest); congruence.
    + destruct (scan_digits base (String c3 r3) false 0 0)
        as [[[v [| n]] rest] |];
        destruct c3 as [[] [] [] [] [] [] [] []]; try congruence;
        destruct (all_space rest); congruence.
Qed.

Lemma decoder_error_py_int (s : string) (base : Z) :
  raises_only decoder_error (py_int s base).
Proof.
  intros e H. rewrite (py_int_raises s base e H). exact I.
Qed.

Lemma decoder_error_to_int (s : string) (base : Z) :
  raises_only decoder_error (to_int s base).
Proof.
  destruct s; simpl; [apply raises_only_Return | apply decoder_error_py_int].
Qed.

Lemma decoder_error_signed (s : string) : raises_only decoder_error (signed s).
Proof.
  intros e. unfold signed.
  destruct (all_bits s); [destruct s |]; intros H;
    try discriminate H; injection H as <-; exact I.
Qed.

Lemma decoder_error_index (i : nat) (s : string) :
  raises_only decoder_error (index i s).
Proof.
  intros e. unfold index. destruct (String.get i s); intros H;
    [discriminate H | injection H as <-; exact I].
Qed.

Lemma decoder_error_getitem (table : list (Z * string)) (key : Z) :
  raises_only decoder_error (getitem table key).
Proof.
  intros e. unfold getitem. destruct (lookup key table); intros H;
    [discriminate H | injection H as <-; exact I].
Qed.

Lemma decoder_error_ascii6_loop (chunks : list string) (ignore : bool)
    (acc : string) :
  raises_only decoder_error (ascii6_loop chunks ignore acc).
Proof.
  revert acc. induction chunks as [| chunk chunks IH]; intros acc; simpl.
  - apply raises_only_Return.
  - apply raises_only_bind; [apply decoder_error_py_int |].
    intros c. destruct (_ && _); [apply raises_only_Return | apply IH].
Qed.

Lemma decoder_error_ascii6 (data : string) (ignore : bool) :
  raises_only decoder_error (ascii6 data ignore).
Proof. apply decoder_error_ascii6_loop. Qed.

Create HintDb decoder_errors.

#[local] Hint Resolve raises_only_Return decoder_error_py_int
  decoder_error_to_int decoder_error_signed decoder_error_index
  decoder_error_getitem decoder_error_ascii6 : decoder_errors.

Ltac decoder_errors_step :=
  first [ solve [auto with decoder_errors]
        | destruct (contains _ _); solve [auto with decoder_errors] ].

Ltac decoder_errors :=
  repeat (apply raises_only_bind; [decoder_errors_step | intros ?]);
  decoder_errors_step.

Lemma decoder_error_flag (i : nat) (s : string) :
  raises_only decoder_error (flag i s).
Proof. unfold flag. decoder_errors. Qed.

#[local] Hint Resolve decoder_error_flag : decoder_errors.

Lemma decoder_error_decode_msg_1 (bv : string) :
  raises_only decoder_error (decode_msg_1 bv).
Proof. unfold decode_msg_1. decoder_errors. Qed.

Lemma decoder_error_decode_msg_4 (bv : string) :
  raises_only decoder_error (decode_msg_4 bv).
Proof. unfold decode_msg_4. decoder_errors. Qed.

Lemma decoder_error_decode_msg_5 (bv : string) :
  raises_only decoder_error (decode_msg_5 bv).
Proof. unfold decode_msg_5. decoder_errors. Qed.

Lemma decoder_error_decode_msg_18 (bv : string) :
  raises_only decoder_error (decode_msg_18 bv).
Proof. unfold decode_msg_18. decoder_errors. Qed.

Lemma decoder_error_decode_msg_pass (bv : string) :
  raises_only decoder_error (decode_msg_pass bv).
Proof. apply raises_only_Return. Qed.

Lemma dispatch_in_table (msg_type : Z) (bit_vector : string) :
  0 < msg_type < 25 ->
  exists decoder : string -> result pyval,
    nth_error DECODE_MSG (Z.to_nat msg_type) = Some (Some decoder) /\
    dispatch msg_type bit_vector = decoder bit_vector /\
    raises_only decoder_error (decoder bit_vector).
Proof.
  intros H.
  assert (Hcases :
    msg_type = 1 \/ msg_type = 2 \/ msg_type = 3 \/ msg_type = 4 \/
    msg_type = 5 \/ msg_type = 6 \/ msg_type = 7 \/ msg_type = 8 \/
    msg_type = 9 \/ msg_type = 10 \/ msg_type = 11 \/ msg_type = 12 \/
    msg_type = 13 \/ msg_type = 14 \/ msg_type = 15 \/ msg_type = 16 \/
    msg_type = 17 \/ msg_type = 18 \/ msg_type = 19 \/ msg_type = 20 \/
    msg_type = 21 \/ msg_type = 22 \/ msg_type = 23 \/ msg_type = 24) by lia.
  repeat (destruct Hcases as [-> | Hcases];
          [ eexists; split; [reflexivity |]; split; [reflexivity |];
            first [ apply decoder_error_decode_msg_1
                  | apply decoder_error_decode_msg_4
                  | apply decoder_error_decode_msg_5
                  | apply decoder_error_decode_msg_18
                  | apply decoder_error_decode_msg_pass ]
          | ]).
  subst msg_type. eexists. split; [reflexivity |]. split; [reflexivity |].
  apply decoder_error_decode_msg_pass.
Qed.

(** Whatever the line, [decode] prints at most one notice, and only when it
    returns [None]; when it raises it has printed nothing.  What it raises
    is the unpacking error (exactly when the field count is not 7) or an
    error of reading a field; the table of decoders is never indexed out of
    range and its [None] entry at index 0 is never called. *)
Theorem decode_outcomes (msg : string) (out : list string) (r : result pyval) :
  decode msg = (out, r) ->
  (out = [] \/
   (r = Return PNone /\ (out = [INVALID_CHECKSUM] \/ out = [NO_SENTENCING])))
  /\
  (forall e : exn,
     r = Raise e ->
     out = [] /\
     (e = ValueError_unpack 7 (List.length (split "," msg)) \/
      decoder_error e) /\
     e <> TypeError_not_callable /\
     e <> IndexError_list).
Proof.
  intros H.
  assert (Hcat : forall e, e = ValueError_unpack 7 (List.length (split "," msg))
                           \/ decoder_error e ->
                           e <> TypeError_not_callable /\ e <> IndexError_list).
  { intros e [-> | He]; [split; discriminate |].
    split; intros ->; exact He. }
  unfold decode in H.
  destruct (split "," msg)
    as [| f1 [| f2 [| f3 [| f4 [| f5 [| f6 [| f7 [| f8 l]]]]]]]] eqn:E;
    try (injection H as <- <-; split; [now left |];
         intros e He; injection He as <-;
         split; [reflexivity |]; split; [now left | split; discriminate]).
  destruct (py_int (slice 0 6 (decode_ascii6 f6)) 2) as [t | e0] eqn:Et.
  - destruct (py_int ("0x" ++ slice_from 2 f7) 16) as [k | e0] eqn:Ek.
    + destruct (negb (checksum msg =? k)).
      { injection H as <- <-. split; [right; split; auto |].
        intros e He. discriminate He. }
      destruct (negb (f2 =? "1")%string || negb (f3 =? "1")%string).
      { injection H as <- <-. split; [right; split; auto |].
        intros e He. discriminate He. }
      destruct ((0 <? t) && (t <? 25)) eqn:Erange.
      * injection H as <- <-. split; [now left |].
        intros e He. split; [reflexivity |].
        apply andb_true_iff in Erange as [H0 H25].
        apply Z.ltb_lt in H0, H25.
        destruct (dispatch_in_table t (decode_ascii6 f6) (conj H0 H25))
          as (decoder & _ & Hdisp & Hraises).
        rewrite Hdisp in He.
        pose proof (Hraises e He) as Herr.
        split; [now right | apply Hcat; now right].
      * injection H as <- <-. split; [now left |].
        intros e He. discriminate He.
    + injection H as <- <-. split; [now left |].
      intros e He. injection He as <-. split; [reflexivity |].
      pose proof (decoder_error_py_int _ _ e0 Ek) as Herr.
      split; [now right | apply Hcat; now right].
  - injection H as <- <-. split; [now left |].
    intros e He. injection He as <-. split; [reflexivity |].
    pose proof (decoder_error_py_int _ _ e0 Et) as Herr.
    split; [now right | apply Hcat; now right].
Qed.

Lemma decode_outcomes_witness :
  decode "!AIVDM,1,1,,B,,0*00" = ([], Raise (ValueError_int 2 "")) /\
  decoder_error (ValueError_int 2 "").
Proof.
  destruct (decode_outcomes "!AIVDM,1,1,,B,,0*00" []
              (Raise (ValueError_int 2 ""))) as (_ & Hraise).
  - reflexivity.
  - destruct (Hraise (ValueError_int 2 "") eq_refl) as (_ & [Hu | He] & _).
    + discriminate Hu.
    + split; [reflexivity | exact He].
Defined.

(** ** decode, end to end, on armored payloads *)

Lemma decode_ascii6_armored (data : string) :
  armored data = true ->
  all_bits (decode_ascii6 data) = true /\
  String.length (decode_ascii6 data) = (6 * String.length data)%nat.
Proof.
  induction data as [| ch data IH]; intros H.
  - split; reflexivity.
  - simpl in H. apply andb_true_iff in H as [Hch Hdata].
    destruct (IH Hdata) as (IH1 & IH2).
    rewrite decode_ascii6_cons, (format_06b_armor_char ch Hch).
    split.
    + rewrite all_bits_app, IH1, all_bits_six_bits. reflexivity.
    + rewrite length_app, IH2. simpl String.length. lia.
Qed.

Lemma first_group_value (ch : ascii) (rest : string) :
  armor_char ch = true ->
  bits_value (slice 0 6 (decode_ascii6 (String ch rest))) 0 = armor_value ch.
Proof.
  intros Hch.
  rewrite type_bits_first_char, (format_06b_armor_char ch Hch).
  change (str_take 6 (six_bits (armor_value ch)))
    with (six_bits (armor_value ch)).
  apply six_bits_value, armor_value_range, Hch.
Qed.

Section ArmoredSentence.

Variables (msg m_typ seq_id channel rest chcksum : string) (ch : ascii).

Hypothesis single_sentence :
  split "," msg
  = [m_typ; "1"; "1"; seq_id; channel; String ch rest; chcksum]%list.

Hypothesis checksum_ok :
  py_int ("0x" ++ slice_from 2 chcksum) 16 = Return (checksum msg).

Hypothesis payload_armored : armored (String ch rest) = true.

Lemma first_char_armored : armor_char ch = true.
Proof.
  simpl in payload_armored.
  apply andb_true_iff in payload_armored as [H _]. exact H.
Qed.

(** With the checks passed, the first payload character selects the
    decoder. *)
Lemma decode_armored_dispatch :
  decode msg =
  if (0 <? armor_value ch) && (armor_value ch <? 25)
  then ([], dispatch (armor_value ch) (decode_ascii6 (String ch rest)))
  else ([], Return PNone).
Proof.
  apply (decode_dispatch _ _ _ _ _ _ _ _ single_sentence (armor_value ch)).
  - apply msg_type_armor_char, first_char_armored.
  - exact checksum_ok.
  - reflexivity.
  - reflexivity.
Qed.

End ArmoredSentence.

(** A sentence that passes the checks and whose armored payload starts with
    '1', '2' or '3' decodes to a position report exactly when the payload
    has at least 25 characters and the maneuver code is not 3; the type
    field is the value of the first character.  With maneuver code 3
    [decode] raises [KeyError]; with a shorter payload it raises
    [IndexError] or the error of reading an empty signed range. *)
Theorem decode_position_report
    (msg m_typ seq_id channel rest chcksum : string) (ch : ascii) :
  split "," msg
  = [m_typ; "1"; "1"; seq_id; channel; String ch rest; chcksum]%list ->
  py_int ("0x" ++ slice_from 2 chcksum) 16 = Return (checksum msg) ->
  armored (String ch rest) = true ->
  1 <= armor_value ch <= 3 ->
  ((25 <= String.length (String ch rest))%nat ->
   bits_value (slice 143 145 (decode_ascii6 (String ch rest))) 0 <> 3 ->
   exists d : pyval,
     decode msg = ([], Return d) /\
     field "type" d = Some (PInt (armor_value ch))) /\
  (bits_value (slice 143 145 (decode_ascii6 (String ch rest))) 0 = 3 ->
   decode msg = ([], Raise (KeyError 3))) /\
  ((String.length (String ch rest) < 25)%nat ->
   decode msg = ([], Raise IndexError_string) \/
   decode msg = ([], Raise InterpretError)).
Proof.
  intros Hsplit Hsum Harm Htype.
  pose proof (decode_armored_dispatch _ _ _ _ _ _ _ Hsplit Hsum Harm) as Hdec.
  replace ((0 <? armor_value ch) && (armor_value ch <? 25)) with true in Hdec
    by (symmetry; apply andb_true_iff; split; apply Z.ltb_lt; lia).
  assert (Hdisp : dispatch (armor_value ch) (decode_ascii6 (String ch rest))
                  = decode_msg_1 (decode_ascii6 (String ch rest))).
  { assert (Hcases : armor_value ch = 1 \/ armor_value ch = 2
                     \/ armor_value ch = 3) by lia.
    destruct Hcases as [-> | [-> | ->]]; reflexivity. }
  rewrite Hdisp in Hdec. rewrite Hdec.
  destruct (decode_ascii6_armored _ Harm) as (Hbits & Hlen).
  pose proof (first_group_value ch rest
                (first_char_armored rest ch Harm)) as Hfirst.
  destruct (decode_msg_1_bits_cases _ Hbits)
    as [(Hlong & Hn3 & d & Hd & Hfield)
       | [(H3 & Hraise) | (Hshort & Hn3 & Hraise)]].
  - split; [| split].
    + intros _ _. exists d. rewrite Hd. split; [reflexivity |].
      rewrite Hfield, Hfirst. reflexivity.
    + intros H3. contradiction.
    + intros Hshort. rewrite Hlen in Hlong. lia.
  - split; [| split].
    + intros _ Hn3. contradiction.
    + intros _. now rewrite Hraise.
    + intros Hshort.
      destruct (maneuver_field (decode_ascii6 (String ch rest)))
        as (_ & Hman3 & _).
      pose proof (Hman3 H3) as H145. rewrite Hlen in H145. lia.
  - split; [| split].
    + intros Hlong _. rewrite Hlen in Hshort. lia.
    + intros H3. contradiction.
    + intros _. destruct Hraise as [-> | ->]; auto.
Qed.

Lemma decode_position_report_witness :
  exists d : pyval,
    decode "!AIVDM,1,1,,A,35NVm2gP00o@5k:EbbPJnwwN25e3,0*35" = ([], Return d) /\
    field "type" d = Some (PInt 3).
Proof.
  destruct (decode_position_report
              "!AIVDM,1,1,,A,35NVm2gP00o@5k:EbbPJnwwN25e3,0*35"
              "!AIVDM" "" "A" "5NVm2gP00o@5k:EbbPJnwwN25e3" "0*35" "3")
    as (Hgood & _).
  - reflexivity.
  - reflexivity.
  - reflexivity.
  - vm_compute. split; discriminate.
  - apply Hgood.
    + apply Nat.leb_le. reflexivity.
    + vm_compute. discriminate.
Defined.

(** A sentence that passes the checks and whose armored payload starts with
    '4' (base station report) or 'B' (type 18, class B position report)
    decodes to a message exactly when the payload has at least 25
    characters; with a shorter payload [decode] raises [IndexError] or the
    error of reading an empty signed range. *)
Theorem decode_station_and_class_b
    (msg m_typ seq_id channel rest chcksum : string) (ch : ascii) :
  split "," msg
  = [m_typ; "1"; "1"; seq_id; channel; String ch rest; chcksum]%list ->
  py_int ("0x" ++ slice_from 2 chcksum) 16 = Return (checksum msg) ->
  armored (String ch rest) = true ->
  armor_value ch = 4 \/ armor_value ch = 18 ->
  ((exists d : pyval, decode msg = ([], Return d))
   <-> (25 <= String.length (String ch rest))%nat) /\
  ((String.length (String ch rest) < 25)%nat ->
   decode msg = ([], Raise IndexError_string) \/
   decode msg = ([], Raise InterpretError)).
Proof.
  intros Hsplit Hsum Harm Htype.
  pose proof (decode_armored_dispatch _ _ _ _ _ _ _ Hsplit Hsum Harm) as Hdec.
  destruct (decode_ascii6_armored _ Harm) as (Hbits & Hlen).
  destruct Htype as [Htype | Htype]; rewrite Htype in Hdec;
    change ((0 <? 4) && (4 <? 25)) with true in Hdec;
    change ((0 <? 18) && (18 <? 25)) with true in Hdec;
    cbv iota in Hdec; rewrite Hdec.
  - change (dispatch 4 (decode_ascii6 (String ch rest)))
      with (decode_msg_4 (decode_ascii6 (String ch rest))).
    destruct (decode_msg_4_bits_cases _ Hbits)
      as [(Hlong & d & Hd & _) | (Hshort & Hraise)].
    + rewrite Hd. rewrite Hlen in Hlong. split; [split |].
      * intros _. lia.
      * intros _. exists d. reflexivity.
      * intros Hshort. lia.
    + rewrite Hraise. rewrite Hlen in Hshort. split; [split |].
      * intros (d & Hd). discriminate Hd.
      * intros Hlong. lia.
      * intros _. now left.
  - change (dispatch 18 (decode_ascii6 (String ch rest)))
      with (decode_msg_18 (decode_ascii6 (String ch rest))).
    destruct (decode_msg_18_bits_cases _ Hbits)
      as [(Hlong & d & Hd & _) | (Hshort & Hraise)].
    + rewrite Hd. rewrite Hlen in Hlong. split; [split |].
      * intros _. lia.
      * intros _. exists d. reflexivity.
      * intros Hshort. lia.
    + rewrite Hlen in Hshort. split; [split |].
      * intros (d & Hd). destruct Hraise as [Hr | Hr];
          rewrite Hr in Hd; discriminate Hd.
      * intros Hlong. lia.
      * intros _. destruct Hraise as [-> | ->]; auto.
Qed.

Lemma decode_station_and_class_b_witness :
  exists d : pyval,
    decode "!AIVDM,1,1,,A,B52KlJP00=l4be5ItJ6r3wVUWP06,0*7C" = ([], Return d).
Proof.
  destruct (decode_station_and_class_b
              "!AIVDM,1,1,,A,B52KlJP00=l4be5ItJ6r3wVUWP06,0*7C"
              "!AIVDM" "" "A" "52KlJP00=l4be5ItJ6r3wVUWP06" "0*7C" "B")
    as ((_ & Hback) & _).
  - reflexivity.
  - reflexivity.
  - reflexivity.
  - right. reflexivity.
  - apply Hback. apply Nat.leb_le. reflexivity.
Defined.

(** A sentence that passes the checks and whose armored payload starts with
    '5' decodes to a static-data message exactly when the EPFD code in bits
    [270:274) is at most 8, whatever the length of the payload: a payload of
    45 characters or fewer, down to the single character '5', is always
    decoded, its missing fields being 0 or empty.  With an EPFD code from 9
    on [decode] raises [KeyError] with that code. *)
Theorem decode_static_data
    (msg m_typ seq_id channel rest chcksum : string) (ch : ascii) :
  split "," msg
  = [m_typ; "1"; "1"; seq_id; channel; String ch rest; chcksum]%list ->
  py_int ("0x" ++ slice_from 2 chcksum) 16 = Return (checksum msg) ->
  armored (String ch rest) = true ->
  armor_value ch = 5 ->
  ((exists d : pyval, decode msg = ([], Return d))
   <-> bits_value (slice 270 274 (decode_ascii6 (String ch rest))) 0 <= 8) /\
  (9 <= bits_value (slice 270 274 (decode_ascii6 (String ch rest))) 0 ->
   decode msg
   = ([], Raise (KeyError
                   (bits_value
                      (slice 270 274 (decode_ascii6 (String ch rest))) 0))))
  /\
  ((String.length (String ch rest) <= 45)%nat ->
   exists d : pyval, decode msg = ([], Return d)).
Proof.
  intros Hsplit Hsum Harm Htype.
  pose proof (decode_armored_dispatch _ _ _ _ _ _ _ Hsplit Hsum Harm) as Hdec.
  destruct (decode_ascii6_armored _ Harm) as (Hbits & Hlen).
  rewrite Htype in Hdec.
  change ((0 <? 5) && (5 <? 25)) with true in Hdec. cbv iota in Hdec.
  change (dispatch 5 (decode_ascii6 (String ch rest)))
    with (decode_msg_5 (decode_ascii6 (String ch rest))) in Hdec.
  rewrite Hdec.
  destruct (epfd_field (decode_ascii6 (String ch rest)))
    as (_ & _ & _ & Hzero).
  destruct (decode_msg_5_bits_cases _ Hbits)
    as [(H8 & d & Hd & _) | (H9 & Hraise)].
  - rewrite Hd. split; [split | split].
    + intros _. exact H8.
    + intros _. exists d. reflexivity.
    + intros H9. lia.
    + intros _. exists d. reflexivity.
  - rewrite Hraise. split; [split | split].
    + intros (d & Hd). discriminate Hd.
    + intros H8. lia.
    + intros _. reflexivity.
    + intros Hshort. rewrite Hzero in H9 by (rewrite Hlen; lia). lia.
Qed.

Lemma decode_static_data_witness :
  exists d : pyval, decode "!AIVDM,1,1,,B,5,0*10" = ([], Return d).
Proof.
  destruct (decode_static_data "!AIVDM,1,1,,B,5,0*10"
              "!AIVDM" "" "B" "" "0*10" "5") as (_ & _ & Hshort).
  - reflexivity.
  - reflexivity.
  - reflexivity.
  - reflexivity.
  - apply Hshort. apply Nat.leb_le. reflexivity.
Defined.

(** ** The fields of a position report *)

Lemma to_int_slice_value (a b : nat) (s : string) (v : Z) :
  all_bits s = true ->
  to_int (slice a b s) 2 = Return v ->
  0 <= v < 2 ^ Z.of_nat (b - a).
Proof.
  intros Hbits H.
  rewrite (to_int_bits _ (all_bits_slice a b s Hbits)) in H.
  injection H as <-.
  pose proof (bits_value_range (slice a b s)) as Hr.
  pose proof (length_slice a b s) as Hlen.
  assert (2 ^ Z.of_nat (String.length (slice a b s)) <= 2 ^ Z.of_nat (b - a))
    by (apply Z.pow_le_mono_r; lia).
  lia.
Qed.

Lemma index_bit_value (i : nat) (s b : string) (v : Z) :
  all_bits s = true ->
  index i s = Return b ->
  to_int b 2 = Return v ->
  v = 0 \/ v = 1.
Proof.
  intros Hbits Hb Hv.
  destruct (Nat.le_gt_cases (String.length s) i) as [Hout | Hin].
  - rewrite (index_past_end i s Hout) in Hb. discriminate Hb.
  - rewrite (index_slice i s Hin) in Hb. injection Hb as <-.
    pose proof (to_int_slice_value i (S i) s v Hbits Hv) as Hr.
    replace (S i - i)%nat with 1%nat in Hr by lia.
    change (2 ^ Z.of_nat 1) with 2 in Hr. lia.
Qed.

Lemma getitem_Return (table : list (Z * string)) (key : Z) (label : string) :
  getitem table key = Return label -> lookup key table = Some label.
Proof.
  unfold getitem. destruct (lookup key table); congruence.
Qed.

(** In a position report decoded from a vector of bits every field lies in
    the range of its bit width: the MMSI below 2^30, the status code below
    16 and the maneuver code below 3, each with its label from the table,
    the rate of turn from -128 to 127, the speed below 1024, the heading
    below 512, the second below 64; the accuracy is the integer 0 or 1. *)
Theorem decode_msg_1_field_ranges (bit_vector : string) (d : pyval) :
  all_bits bit_vector = true ->
  decode_msg_1 bit_vector = Return d ->
  exists (mmsi status turn speed accuracy heading second maneuver : Z)
         (status_label maneuver_label : string),
    field "mmsi" d = Some (PInt mmsi) /\ 0 <= mmsi < 2 ^ 30 /\
    field "status" d = Some (PTuple [PInt status; PStr status_label]) /\
    0 <= status < 16 /\
    lookup status NAVIGATION_STATUS = Some status_label /\
    field "turn" d = Some (PInt turn) /\ -128 <= turn < 128 /\
    field "speed" d = Some (PInt speed) /\ 0 <= speed < 1024 /\
    field "accuracy" d = Some (PInt accuracy) /\
    (accuracy = 0 \/ accuracy = 1) /\
    field "heading" d = Some (PInt heading) /\ 0 <= heading < 512 /\
    field "second" d = Some (PInt second) /\ 0 <= second < 64 /\
    field "maneuver" d = Some (PTuple [PInt maneuver; PStr maneuver_label]) /\
    0 <= maneuver < 3 /\
    lookup maneuver MANEUVER_INDICATOR = Some maneuver_label.
Proof.
  intros Hbits H. unfold decode_msg_1 in H. peel H. injection H as <-.
  repeat match goal with
  | E : to_int (slice ?a ?b _) 2 = Return ?v |- _ =>
      pose proof (to_int_slice_value a b _ v Hbits E); clear E
  | E : signed (slice ?a ?b _) = Return ?v |- _ =>
      pose proof (signed_slice_range a b _ v E); clear E
  | E : getitem _ _ = Return _ |- _ => apply getitem_Return in E
  end.
  match goal with
  | Eb : index 60%nat _ = Return ?b, Ev : to_int ?b 2 = Return ?v |- _ =>
      pose proof (index_bit_value 60 _ b v Hbits Eb Ev) as Hacc
  end.
  match goal with
  | E : lookup ?m MANEUVER_INDICATOR = Some _ |- _ =>
      assert (Hman : 0 <= m < 3)
        by (assert (m <> 3) by (intros ->; discriminate E);
            match goal with
            | R : 0 <= m < _ |- _ => simpl in R; lia
            end)
  end.
  do 10 eexists.
  repeat match goal with
  | |- _ /\ _ => split
  end;
    try reflexivity; try eassumption;
    repeat match goal with
    | R : _ <= _ < _ |- _ => progress simpl in R
    end; lia.
Qed.

Lemma decode_msg_1_field_ranges_witness :
  exists (d : pyval) (mmsi : Z),
    decode_msg_1 (decode_ascii6 "15M67FC000G?ufbE`FepT@3n00Sa") = Return d /\
    field "mmsi" d = Some (PInt mmsi) /\ 0 <= mmsi < 2 ^ 30.
Proof.
  assert (Hd : exists d,
             decode_msg_1 (decode_ascii6 "15M67FC000G?ufbE`FepT@3n00Sa")
             = Return d)
    by (vm_compute; eexists; reflexivity).
  destruct Hd as (d & Hd).
  destruct (decode_msg_1_field_ranges
              (decode_ascii6 "15M67FC000G?ufbE`FepT@3n00Sa") d)
    as (mmsi & status & turn & speed & accuracy & heading & second & maneuver
        & status_label & maneuver_label & Hmmsi & Rmmsi & _).
  - vm_compute. reflexivity.
  - exact Hd.
  - exists d, mmsi. split; [exact Hd |]. split; [exact Hmmsi | exact Rmmsi].
Defined.

(** ** A checksum field without digits *)

Lemma slice_from_short (n : nat) (s : string) :
  (String.length s <= n)%nat -> slice_from n s = "".
Proof.
  intros H. unfold slice_from.
  pose proof (length_str_drop n s) as Hlen.
  destruct (str_drop n s); [reflexivity | simpl in Hlen; lia].
Qed.

(** When the last field of a line of seven fields has two characters or
    fewer, so that nothing follows the '*', [decode] does not report a
    checksum mismatch: parsing the bare prefix "0x" raises [ValueError]. *)
Theorem decode_checksum_digits_missing
    (msg m_typ n_sentences sentence_num seq_id channel data chcksum : string) :
  split "," msg
  = [m_typ; n_sentences; sentence_num; seq_id; channel; data; chcksum]%list ->
  data <> "" ->
  (String.length chcksum <= 2)%nat ->
  decode msg = ([], Raise (ValueError_int 16 "0x")).
Proof.
  intros Hsplit Hdata Hshort.
  rewrite (decode_seven_fields _ _ _ _ _ _ _ _ Hsplit).
  destruct (msg_type_nonempty data Hdata) as (msg_type & ->).
  rewrite (slice_from_short 2 chcksum Hshort). reflexivity.
Qed.

Lemma decode_checksum_digits_missing_witness :
  decode "!AIVDM,1,1,,B,15M67FC000G?ufbE`FepT@3n00Sa,0*"
  = ([], Raise (ValueError_int 16 "0x")).
Proof.
  apply (decode_checksum_digits_missing
           "!AIVDM,1,1,,B,15M67FC000G?ufbE`FepT@3n00Sa,0*"
           "!AIVDM" "1" "1" "" "B" "15M67FC000G?ufbE`FepT@3n00Sa" "0*").
  - reflexivity.
  - discriminate.
  - simpl. lia.
Defined.
